(** * ApnaSwastha worker registry: registration, QR composition, QR cache

    A shallow embedding of [src/app.py] (flat-file variant) and
    [src/app_back.py] with [src/db.py] (relational variant).

    Conventions of the embedding.
    - Text is [string] (a sequence of 8-bit characters); whitespace and
      digits are the ASCII ones.
    - A request body is a JSON object whose members are [null], booleans,
      integers or strings (type [json]); fractions, arrays and nested
      objects are outside the embedding.
    - An uncaught Python exception is [Raise]; a handler's
      [try ... except Exception] turns it into a 500 response.
    - A directory of assets is a finite map from file name to content;
      the CSV file is the list of its data rows under the header
      [FIELDNAMES]; the [workers] table is the list of its rows.
    - [base64], [Pillow], [qrcode] and [datetime.strptime]/[strftime] are
      library code: they enter through the class [Externals]. *)

From Stdlib Require Import ZArith String Ascii List Lia DecimalString.
From stdpp Require Import base option gmap strings list.

Local Open Scope string_scope.
Local Open Scope Z_scope.

(** ** Python values and exceptions *)

Inductive json : Type :=
  | JNull
  | JBool (b : bool)
  | JInt (z : Z)
  | JStr (s : string).

Inductive exn : Type :=
  | AttributeError
  | TypeError
  | ValueError
  | DataOverflowError
  | StatementError
  | FileNotFoundError.

Inductive result (A : Type) : Type :=
  | Ok (a : A)
  | Raise (e : exn).
Arguments Ok {A} a.
Arguments Raise {A} e.

#[export] Instance result_ret : MRet result := @Ok.
#[export] Instance result_bind : MBind result := fun A B k m =>
  match m with
  | Ok a => k a
  | Raise e => Raise e
  end.

(** Truth value testing, as used by [x or y] and [if not x]. *)
Definition truthy (v : json) : bool :=
  match v with
  | JNull => false
  | JBool b => b
  | JInt z => negb (z =? 0)
  | JStr s => negb (String.eqb s "")
  end.

(** [data.get(k) or d]: the member when present and truthy, else [d]. *)
Definition get_or (data : gmap string json) (k : string) (d : json) : json :=
  match data !! k with
  | Some v => if truthy v then v else d
  | None => d
  end.

(** [str.isspace] on one ASCII character: tab, LF, VT, FF, CR, the four
    separators 0x1c-0x1f, and space. *)
Definition py_isspace (c : ascii) : bool :=
  let n := Z.of_nat (nat_of_ascii c) in
  ((9 <=? n) && (n <=? 13)) || ((28 <=? n) && (n <=? 31)) || (n =? 32).

Fixpoint lstrip (s : string) : string :=
  match s with
  | String c s' => if py_isspace c then lstrip s' else s
  | EmptyString => EmptyString
  end.

Fixpoint rstrip (s : string) : string :=
  match s with
  | String c s' =>
      match rstrip s' with
      | EmptyString => if py_isspace c then EmptyString else String c EmptyString
      | t => String c t
      end
  | EmptyString => EmptyString
  end.

(** [s.strip()] *)
Definition strip (s : string) : string := rstrip (lstrip s).

(** [v.strip()] on a value: only strings have the method. *)
Definition py_strip (v : json) : result string :=
  match v with
  | JStr s => Ok (strip s)
  | _ => Raise AttributeError
  end.

(** [(data.get(k) or '').strip()] *)
Definition text_field (data : gmap string json) (k : string) : result string :=
  py_strip (get_or data k (JStr "")).

(** *** [int(...)] *)

Definition digit_val (c : ascii) : option Z :=
  let n := Z.of_nat (nat_of_ascii c) in
  if (48 <=? n) && (n <=? 57) then Some (n - 48) else None.

(** Digits of a decimal literal after the sign: groups of digits joined
    by single underscores.  [prev] tells whether the previous character
    was a digit. *)
Fixpoint int_digits (s : string) (prev : bool) (acc : Z) : option Z :=
  match s with
  | EmptyString => if prev then Some acc else None
  | String c s' =>
      match digit_val c with
      | Some d => int_digits s' true (10 * acc + d)
      | None =>
          if Ascii.eqb c "_"%char && prev then int_digits s' false acc
          else None
      end
  end.

(** [int(s)] for a string: surrounding whitespace, an optional sign, then
    the digits. *)
Definition int_of_string (s : string) : option Z :=
  match strip s with
  | String "-" t => Z.opp <$> int_digits t false 0
  | String "+" t => int_digits t false 0
  | t => int_digits t false 0
  end.

Definition py_int (v : json) : result Z :=
  match v with
  | JNull => Raise TypeError
  | JBool b => Ok (if b then 1 else 0)
  | JInt z => Ok z
  | JStr s => match int_of_string s with
              | Some z => Ok z
              | None => Raise ValueError
              end
  end.

(** [str(z)] for an integer. *)
Definition str_of_Z (z : Z) : string := NilZero.string_of_int (Z.to_int z).

(** [str(v)] *)
Definition py_str (v : json) : string :=
  match v with
  | JNull => "None"
  | JBool true => "True"
  | JBool false => "False"
  | JInt z => str_of_Z z
  | JStr s => s
  end.

(** [int(data.get(k) or 0)] *)
Definition int_field (data : gmap string json) (k : string) : result Z :=
  py_int (get_or data k (JInt 0)).

(** A member is omitted when it is missing or falsy ([null], [false],
    [0], ['']): [data.get(k) or d] is then [d]. *)
Definition omitted (data : gmap string json) (k : string) : Prop :=
  match data !! k with
  | None => True
  | Some v => truthy v = false
  end.

(** A member that is a non-empty string and no integer literal. *)
Definition not_an_integer (data : gmap string json) (k : string) : Prop :=
  ∃ s, data !! k = Some (JStr s) ∧ s ≠ "" ∧ int_of_string s = None.

(** The health identifier of a body is blank when it is omitted or a
    string that is empty after trimming whitespace. *)
Definition blank_health_id (data : gmap string json) : Prop :=
  match data !! "healthId" with
  | Some (JStr s) => strip s = ""
  | _ => omitted data "healthId"
  end.

(** *** [json.dumps(payload, ensure_ascii=False)] *)

Definition hex_digit (n : Z) : ascii :=
  ascii_of_nat (Z.to_nat (if n <? 10 then 48 + n else 87 + n)).

Definition backslash : ascii := ascii_of_nat 92.
Definition dquote : ascii := ascii_of_nat 34.

(** One character of a JSON string literal: the escapes of
    [json.encoder.ESCAPE_DCT]; everything from 0x20 up is kept. *)
Definition escape_char (c : ascii) : string :=
  let n := Z.of_nat (nat_of_ascii c) in
  let esc (x : ascii) := String backslash (String x EmptyString) in
  if n =? 92 then esc backslash
  else if n =? 34 then esc dquote
  else if n =? 8 then esc "b"%char
  else if n =? 12 then esc "f"%char
  else if n =? 10 then esc "n"%char
  else if n =? 13 then esc "r"%char
  else if n =? 9 then esc "t"%char
  else if n <? 32 then
    esc "u"%char +:+ "00"
    +:+ String (hex_digit (n / 16)) (String (hex_digit (n mod 16)) EmptyString)
  else String c EmptyString.

Fixpoint escape (s : string) : string :=
  match s with
  | EmptyString => EmptyString
  | String c s' => escape_char c +:+ escape s'
  end.

Definition quoted (s : string) : string :=
  String dquote (escape s +:+ String dquote EmptyString).

Definition json_dumps_value (v : json) : string :=
  match v with
  | JNull => "null"
  | JBool true => "true"
  | JBool false => "false"
  | JInt z => str_of_Z z
  | JStr s => quoted s
  end.

Fixpoint json_dumps_items (items : list (string * json)) : string :=
  match items with
  | [] => ""
  | [(k, v)] => quoted k +:+ ": " +:+ json_dumps_value v
  | (k, v) :: rest =>
      quoted k +:+ ": " +:+ json_dumps_value v +:+ ", " +:+ json_dumps_items rest
  end.

(** A dict is dumped in insertion order with the separators [", "] and
    [": "]. *)
Definition json_dumps (payload : list (string * json)) : string :=
  "{" +:+ json_dumps_items payload +:+ "}".

(** ** Library interfaces *)

Inductive ErrorCorrection : Type :=
  | ERROR_CORRECT_L
  | ERROR_CORRECT_M
  | ERROR_CORRECT_Q
  | ERROR_CORRECT_H.

Record datetime : Type := { year : Z; month : Z; day : Z }.

(** What the handlers use from their libraries.
    - [b64decode s]: [base64.b64decode(s)], [None] when it raises;
    - [image_open b]: the size of [Image.open(path).convert('RGB')] for a
      file with content [b], [None] when opening or converting raises;
    - [qr_fits ec v c]: the data [c] fits a symbol of version [v] at
      level [ec] ([qrcode]'s bit-limit table);
    - [strptime s]: [datetime.strptime(s, '%Y-%m-%d')], [None] when it
      raises; [strftime d]: [d.strftime('%Y-%m-%d')]. *)
Class Externals : Type := {
  b64decode : string -> option string;
  image_open : string -> option (Z * Z);
  qr_fits : ErrorCorrection -> Z -> string -> bool;
  strptime : string -> option datetime;
  strftime : datetime -> string
}.

(** ** QR symbols and images *)

(** The arguments of [qrcode.QRCode(...)]. *)
Record QRCode : Type := {
  version : Z;
  error_correction : ErrorCorrection;
  box_size : Z;
  border : Z
}.

(** The face thumbnail pasted on a QR image: the bytes of the face file,
    the thumbnail's size, the size of its white backing and the corner
    where the backing is pasted. *)
Record Overlay : Type := {
  ov_face : string;
  ov_thumb : Z * Z;
  ov_bordered : Z * Z;
  ov_pos : Z * Z
}.

(** An image made by [qr.make_image(fill_color='black',
    back_color='white')]: the data it encodes, the symbol's parameters
    after fitting, and what was pasted on it. *)
Record Picture : Type := {
  pic_data : string;
  pic_qr : QRCode;
  pic_overlay : option Overlay
}.

(** [qr_img.size]: a square of (modules + 2 * border) boxes, a symbol of
    version [v] having 4 v + 17 modules a side. *)
Definition modules_count (v : Z) : Z := 4 * v + 17.
Definition pixel_size (qr : QRCode) : Z :=
  (modules_count (version qr) + 2 * border qr) * box_size qr.
Definition size (img : Picture) : Z * Z :=
  (pixel_size (pic_qr img), pixel_size (pic_qr img)).

(** [qr.add_data(content); qr.make(fit=True)]: the smallest version from
    the requested one up to 40 that holds the data. *)
Definition make_fit `{Externals} (qr : QRCode) (content : string) : result QRCode :=
  match List.find (fun v => qr_fits (error_correction qr) v content)
                  (seqZ (version qr) (41 - version qr)) with
  | Some v => Ok {| version := v; error_correction := error_correction qr;
                    box_size := box_size qr; border := border qr |}
  | None => Raise DataOverflowError
  end.

(** *** [Image.thumbnail] (Pillow)

    The size computation of [Image.thumbnail((x, y))] for an image of
    [w] by [h] pixels, with the aspect ratio [w / h] kept as an exact
    fraction.  The image is left alone when it already fits the box. *)

(** [max(min(floor(num/den), ceil(num/den), key=key), 1)], where
    [closer f c] tells that [key f <= key c]. *)
Definition round_aspect (num den : Z) (closer : Z -> Z -> bool) : Z :=
  let f := num / den in
  let c := - ((- num) / den) in
  Z.max (if closer f c then f else c) 1.

Definition thumbnail (sz box : Z * Z) : Z * Z :=
  let '(w, h) := sz in
  let '(x, y) := box in
  if (w <=? x) && (h <=? y) then (w, h)
  else if w * y <=? x * h then
    (* x / y >= aspect: the height is the constrained side *)
    (round_aspect (y * w) h
       (fun f c => Z.abs (w * y - f * h) <=? Z.abs (w * y - c * h)), y)
  else
    (x, round_aspect (x * h) w
          (fun f c => (f =? 0)
                      || (Z.abs (w * f - x * h) * c <=? Z.abs (w * c - x * h) * f)))
.

(** ** Stored assets (identical in [app.py] and [app_back.py]) *)

Record Storage : Type := {
  FACE_IMAGE_DIR : gmap string string;
  QR_IMAGE_DIR : gmap string Picture
}.

(** [s.split(',')[1]] for a string that contains a comma. *)
Fixpoint upto_comma (s : string) : string :=
  match s with
  | EmptyString => EmptyString
  | String c s' => if Ascii.eqb c ","%char then EmptyString else String c (upto_comma s')
  end.

Fixpoint after_comma (s : string) : option string :=
  match s with
  | EmptyString => None
  | String c s' => if Ascii.eqb c ","%char then Some s' else after_comma s'
  end.

(** [_save_face_image(health_id, face_b64_data)]: the stored file name,
    or [''] when anything raised. *)
Definition _save_face_image `{Externals} (health_id : string) (face_b64_data : json)
    (fs : Storage) : string * Storage :=
  match face_b64_data with
  | JStr s =>
      let face_b64_data :=
        match after_comma s with
        | Some rest => upto_comma rest
        | None => s
        end in
      match b64decode face_b64_data with
      | Some image_bytes =>
          let filename := health_id +:+ ".png" in
          (filename,
           {| FACE_IMAGE_DIR := <[filename := image_bytes]> (FACE_IMAGE_DIR fs);
              QR_IMAGE_DIR := QR_IMAGE_DIR fs |})
      | None => ("", fs)
      end
  | _ => ("", fs)   (* [',' in x] raises TypeError *)
  end.

(** The symbol of a worker QR and of the generic endpoint, as requested. *)
Definition worker_qr : QRCode :=
  {| version := 2; error_correction := ERROR_CORRECT_M; box_size := 10; border := 4 |}.
Definition generic_qr : QRCode :=
  {| version := 1; error_correction := ERROR_CORRECT_L; box_size := 10; border := 4 |}.

(** The overlay step of [_generate_qr_image]: what is pasted on
    [qr_img], if anything. *)
Definition face_overlay `{Externals} (qr_img : Picture) (face_filename : option string)
    (fs : Storage) : option Overlay :=
  match face_filename with
  | Some name =>
      if String.eqb name "" then None else
      match FACE_IMAGE_DIR fs !! name with
      | Some face_bytes =>
          match image_open face_bytes with
          | Some face_size =>
              let thumb_size := Z.max 64 (fst (size qr_img) / 6) in
              let face_img := thumbnail face_size (thumb_size, thumb_size) in
              let bordered := (fst face_img + 8, snd face_img + 8) in
              let pos := (fst (size qr_img) - fst bordered - 8,
                          snd (size qr_img) - snd bordered - 8) in
              Some {| ov_face := face_bytes; ov_thumb := face_img;
                      ov_bordered := bordered; ov_pos := pos |}
          | None => None
          end
      | None => None
      end
  | None => None
  end.

(** [_generate_qr_image(content, health_id, face_filename)]: the stored
    file name. *)
Definition _generate_qr_image `{Externals} (content health_id : string)
    (face_filename : option string) (fs : Storage) : result (string * Storage) :=
  qr ← make_fit worker_qr content;
  let qr_img := {| pic_data := content; pic_qr := qr; pic_overlay := None |} in
  let qr_img := {| pic_data := content; pic_qr := qr;
                   pic_overlay := face_overlay qr_img face_filename fs |} in
  let filename := health_id +:+ ".png" in
  Ok (filename,
      {| FACE_IMAGE_DIR := FACE_IMAGE_DIR fs;
         QR_IMAGE_DIR := <[filename := qr_img]> (QR_IMAGE_DIR fs) |}).

(** [x or None] for a string. *)
Definition or_None (s : string) : option string :=
  if String.eqb s "" then None else Some s.

(** ** Responses *)

Inductive Response : Type :=
  | Created (healthId : string) (qrUrl : string) (faceUrl : option string)
  | BadRequest (error : string)
  | NotFound
  | ServerError (e : exn)
  | SendFile (png : Picture)
  | JsonRow (row : list (string * string)).

Definition status (r : Response) : Z :=
  match r with
  | Created _ _ _ => 201
  | BadRequest _ => 400
  | NotFound => 404
  | ServerError _ => 500
  | SendFile _ => 200
  | JsonRow _ => 200
  end.

(** [GET /api/generate-qr?data=...]: the symbol is sent from memory,
    nothing is stored. *)
Definition generate_qr_generic `{Externals} (qr_data : option string) : Response :=
  match qr_data with
  | None => BadRequest "No data provided"
  | Some qr_data =>
      if String.eqb qr_data "" then BadRequest "No data provided" else
      match make_fit generic_qr qr_data with
      | Ok qr => SendFile {| pic_data := qr_data; pic_qr := qr; pic_overlay := None |}
      | Raise e => ServerError e
      end
  end.

(** ** The flat-file variant ([src/app.py]) *)

Module App.

(** The CSV schema. *)
Definition FIELDNAMES : list string :=
  [ "health_id"; "full_name"; "age"; "gender"; "phone"; "address"; "native_state";
    "blood_group"; "marital_status"; "language"; "financial_status";
    "registration_date"; "face_filename"; "qr_filename" ].

(** One data row of the CSV file, as [csv.DictReader] yields it and
    [csv.DictWriter] writes it: every cell is text. *)
Module Row.
Record t : Type := {
  health_id : string;
  full_name : string;
  age : string;
  gender : string;
  phone : string;
  address : string;
  native_state : string;
  blood_group : string;
  marital_status : string;
  language : string;
  financial_status : string;
  registration_date : string;
  face_filename : string;
  qr_filename : string
}.
End Row.

(** The cells of a row in the order of the header. *)
Definition cells (row : Row.t) : list (string * string) :=
  [ ("health_id", Row.health_id row); ("full_name", Row.full_name row);
    ("age", Row.age row); ("gender", Row.gender row); ("phone", Row.phone row);
    ("address", Row.address row); ("native_state", Row.native_state row);
    ("blood_group", Row.blood_group row); ("marital_status", Row.marital_status row);
    ("language", Row.language row); ("financial_status", Row.financial_status row);
    ("registration_date", Row.registration_date row);
    ("face_filename", Row.face_filename row); ("qr_filename", Row.qr_filename row) ].

Record State : Type := {
  CSV_FILE : list Row.t;
  storage : Storage
}.

(** The state right after start-up on an empty storage directory: the
    CSV file holds its header only. *)
Definition initial : State :=
  {| CSV_FILE := []; storage := {| FACE_IMAGE_DIR := ∅; QR_IMAGE_DIR := ∅ |} |}.

(** The local variables of [create_worker] once the body is read.  [age]
    is [None] for [''].  [face_b64] is [None] for a missing member. *)
Module Fields.
Record t : Type := {
  health_id : string;
  full_name : string;
  age : option Z;
  gender : string;
  phone : string;
  address : string;
  native_state : string;
  blood_group : string;
  marital_status : string;
  language : string;
  financial_status : string;
  registration_date : json;
  face_b64 : option json
}.
End Fields.

(** Reading the body either answers at once (the 400 branch) or yields
    the fields. *)
Inductive Parsed : Type :=
  | Rejected (r : Response)
  | Accepted (f : Fields.t).

(** [x or ''] for the integer [x]. *)
Definition or_empty (z : Z) : option Z := if z =? 0 then None else Some z.

(** [str(age)] *)
Definition str_age (age : option Z) : string :=
  match age with
  | Some z => str_of_Z z
  | None => ""
  end.

(** Lines 127-144 of [create_worker]; [today] is
    [datetime.utcnow().strftime('%Y-%m-%d')]. *)
Definition read_body (today : string) (data : gmap string json) : result Parsed :=
  health_id ← text_field data "healthId";
  if String.eqb health_id "" then Ok (Rejected (BadRequest "healthId is required")) else
  full_name ← text_field data "fullName";
  age ← int_field data "age";
  let age := or_empty age in
  gender ← text_field data "gender";
  phone ← text_field data "phone";
  address ← text_field data "address";
  native_state ← text_field data "nativeState";
  blood_group ← text_field data "bloodGroup";
  marital_status ← text_field data "maritalStatus";
  language ← text_field data "language";
  financial_status ← text_field data "financialStatus";
  let registration_date := get_or data "registrationDate" (JStr today) in
  let face_b64 := data !! "faceImage" in
  Ok (Accepted
        {| Fields.health_id := health_id; Fields.full_name := full_name;
           Fields.age := age; Fields.gender := gender; Fields.phone := phone;
           Fields.address := address; Fields.native_state := native_state;
           Fields.blood_group := blood_group; Fields.marital_status := marital_status;
           Fields.language := language; Fields.financial_status := financial_status;
           Fields.registration_date := registration_date;
           Fields.face_b64 := face_b64 |}).

(** [_save_face_image(health_id, face_b64) if face_b64 else ''] *)
Definition save_face `{Externals} (health_id : string) (face_b64 : option json)
    (fs : Storage) : string * Storage :=
  match face_b64 with
  | Some v => if truthy v then _save_face_image health_id v fs else ("", fs)
  | None => ("", fs)
  end.

(** The dict encoded into the worker's QR symbol. *)
Definition qr_payload (f : Fields.t) : list (string * json) :=
  [ ("healthId", JStr (Fields.health_id f));
    ("fullName", JStr (Fields.full_name f));
    ("gender", JStr (Fields.gender f));
    ("address", JStr (Fields.address f));
    ("nativeState", JStr (Fields.native_state f));
    ("bloodGroup", JStr (Fields.blood_group f));
    ("maritalStatus", JStr (Fields.marital_status f));
    ("financialStatus", JStr (Fields.financial_status f));
    ("registrationDate", Fields.registration_date f) ].

(** The row written for a submission. *)
Definition new_row (f : Fields.t) (face_filename qr_filename : string) : Row.t :=
  {| Row.health_id := Fields.health_id f;
     Row.full_name := Fields.full_name f;
     Row.age := str_age (Fields.age f);
     Row.gender := Fields.gender f;
     Row.phone := Fields.phone f;
     Row.address := Fields.address f;
     Row.native_state := Fields.native_state f;
     Row.blood_group := Fields.blood_group f;
     Row.marital_status := Fields.marital_status f;
     Row.language := Fields.language f;
     Row.financial_status := Fields.financial_status f;
     Row.registration_date := py_str (Fields.registration_date f);
     Row.face_filename := face_filename;
     Row.qr_filename := qr_filename |}.

(** The loop over the rows read: every row of the identifier is replaced
    by the new one; the flag is [exists]. *)
Fixpoint replace_rows (new : Row.t) (rows : list Row.t) : list Row.t * bool :=
  match rows with
  | [] => ([], false)
  | row :: rest =>
      let '(rows', exists_) := replace_rows new rest in
      if String.eqb (Row.health_id row) (Row.health_id new)
      then (new :: rows', true)
      else (row :: rows', exists_)
  end.

(** The rows written back: the new row is appended when none was
    replaced. *)
Definition upsert (new : Row.t) (rows : list Row.t) : list Row.t :=
  let '(rows', exists_) := replace_rows new rows in
  if exists_ then rows' else rows' ++ [new].

(** [POST /api/workers] *)
Definition create_worker `{Externals} (today : string) (data : gmap string json)
    (st : State) : Response * State :=
  match read_body today data with
  | Raise e => (ServerError e, st)
  | Ok (Rejected r) => (r, st)
  | Ok (Accepted f) =>
      let health_id := Fields.health_id f in
      let '(face_filename, fs) := save_face health_id (Fields.face_b64 f) (storage st) in
      let qr_text := json_dumps (qr_payload f) in
      match _generate_qr_image qr_text health_id (or_None face_filename) fs with
      | Raise e => (ServerError e, {| CSV_FILE := CSV_FILE st; storage := fs |})
      | Ok (qr_filename, fs) =>
          let rows := upsert (new_row f face_filename qr_filename) (CSV_FILE st) in
          (Created health_id
             ("/api/workers/" +:+ health_id +:+ "/qr.png")
             (if String.eqb face_filename "" then None
              else Some ("/api/workers/" +:+ health_id +:+ "/face.png")),
           {| CSV_FILE := rows; storage := fs |})
      end
  end.

(** [_read_worker(health_id)]: the first row of the identifier. *)
Definition _read_worker (health_id : string) (st : State) : option Row.t :=
  List.find (fun row => String.eqb (Row.health_id row) health_id) (CSV_FILE st).

(** [GET /api/workers/<health_id>] *)
Definition get_worker (health_id : string) (st : State) : Response :=
  match _read_worker health_id st with
  | None => NotFound
  | Some row => JsonRow (cells row)
  end.

(** The payload rebuilt from a stored row. *)
Definition row_payload (row : Row.t) : list (string * json) :=
  [ ("healthId", JStr (Row.health_id row));
    ("fullName", JStr (Row.full_name row));
    ("gender", JStr (Row.gender row));
    ("address", JStr (Row.address row));
    ("nativeState", JStr (Row.native_state row));
    ("bloodGroup", JStr (Row.blood_group row));
    ("maritalStatus", JStr (Row.marital_status row));
    ("financialStatus", JStr (Row.financial_status row));
    ("registrationDate", JStr (Row.registration_date row)) ].

(** [send_file(path)] for a QR asset. *)
Definition send_file (name : string) (st : State) : Response :=
  match QR_IMAGE_DIR (storage st) !! name with
  | Some png => SendFile png
  | None => ServerError FileNotFoundError
  end.

(** [GET /api/workers/<health_id>/qr.png].  The handler has no [try]:
    an exception of the rebuild is answered by the framework with 500. *)
Definition get_worker_qr `{Externals} (health_id : string) (st : State) : Response * State :=
  let path := health_id +:+ ".png" in
  match QR_IMAGE_DIR (storage st) !! path with
  | Some _ => (send_file path st, st)
  | None =>
      match _read_worker health_id st with
      | None => (NotFound, st)
      | Some row =>
          let payload := json_dumps (row_payload row) in
          match _generate_qr_image payload health_id
                  (or_None (Row.face_filename row)) (storage st) with
          | Raise e => (ServerError e, st)
          | Ok (_, fs) =>
              let st := {| CSV_FILE := CSV_FILE st; storage := fs |} in
              (send_file path st, st)
          end
      end
  end.

(** The states the service can be in: from the start-up state, by any
    registration request and any QR request. *)
Inductive reachable `{Externals} : State -> Prop :=
  | reachable_initial : reachable initial
  | reachable_create today data st :
      reachable st -> reachable (snd (create_worker today data st))
  | reachable_qr health_id st :
      reachable st -> reachable (snd (get_worker_qr health_id st)).

End App.

(** ** The relational variant ([src/app_back.py], [src/db.py]) *)

Module AppBack.

(** The header written to the CSV file at start-up; the file is not
    used afterwards. *)
Definition csv_header : list string :=
  [ "health_id"; "full_name"; "age"; "gender"; "phone"; "address"; "native_state";
    "blood_group"; "marital_status"; "language"; "financial_status";
    "allergies"; "conditions"; "inherited_diseases"; "previous_treatments";
    "vaccination_count";
    "registration_date"; "face_filename"; "qr_filename" ].

(** A row of the table [workers] ([db.Worker]); a nullable column is an
    [option].  The surrogate key [id] and the relations to appointments
    and feedback are not read by the handlers below and are left out. *)
Module Worker.
Record t : Type := {
  health_id : string;
  full_name : string;
  age : option Z;
  gender : option string;
  phone : option string;
  address : option string;
  native_state : option string;
  blood_group : option string;
  marital_status : option string;
  language : option string;
  financial_status : option string;
  allergies : option string;
  conditions : option string;
  inherited_diseases : option string;
  previous_treatments : option string;
  vaccination_count : Z;
  registration_date : datetime;
  face_filename : option string;
  qr_filename : option string
}.
End Worker.

Record State : Type := {
  workers : list Worker.t;
  storage : Storage
}.

Module Fields.
Record t : Type := {
  health_id : string;
  full_name : string;
  age : option Z;
  gender : string;
  phone : string;
  address : string;
  native_state : string;
  blood_group : string;
  marital_status : string;
  language : string;
  financial_status : string;
  allergies : string;
  conditions : string;
  inherited_diseases : string;
  previous_treatments : string;
  vaccination_count : Z;
  registration_date : json;
  face_b64 : option json
}.
End Fields.

Inductive Parsed : Type :=
  | Rejected (r : Response)
  | Accepted (f : Fields.t).

(** Lines 159-180 of [create_worker]. *)
Definition read_body (today : string) (data : gmap string json) : result Parsed :=
  health_id ← text_field data "healthId";
  if String.eqb health_id "" then Ok (Rejected (BadRequest "healthId is required")) else
  full_name ← text_field data "fullName";
  age ← int_field data "age";
  let age := App.or_empty age in
  gender ← text_field data "gender";
  phone ← text_field data "phone";
  address ← text_field data "address";
  native_state ← text_field data "nativeState";
  blood_group ← text_field data "bloodGroup";
  marital_status ← text_field data "maritalStatus";
  language ← text_field data "language";
  financial_status ← text_field data "financialStatus";
  allergies ← text_field data "allergies";
  conditions ← text_field data "conditions";
  inherited_diseases ← text_field data "inheritedDiseases";
  previous_treatments ← text_field data "previousTreatments";
  vaccination_count ← int_field data "vaccinationCount";
  let registration_date := get_or data "registrationDate" (JStr today) in
  let face_b64 := data !! "faceImage" in
  Ok (Accepted
        {| Fields.health_id := health_id; Fields.full_name := full_name;
           Fields.age := age; Fields.gender := gender; Fields.phone := phone;
           Fields.address := address; Fields.native_state := native_state;
           Fields.blood_group := blood_group; Fields.marital_status := marital_status;
           Fields.language := language; Fields.financial_status := financial_status;
           Fields.allergies := allergies; Fields.conditions := conditions;
           Fields.inherited_diseases := inherited_diseases;
           Fields.previous_treatments := previous_treatments;
           Fields.vaccination_count := vaccination_count;
           Fields.registration_date := registration_date;
           Fields.face_b64 := face_b64 |}).

(** The dict encoded into the worker's QR symbol. *)
Definition qr_payload (f : Fields.t) : list (string * json) :=
  [ ("healthId", JStr (Fields.health_id f));
    ("fullName", JStr (Fields.full_name f));
    ("gender", JStr (Fields.gender f));
    ("nativeState", JStr (Fields.native_state f));
    ("registrationDate", Fields.registration_date f) ].

(** [session.query(DBWorker).filter_by(health_id=health_id).first()],
    the comparison being equality of the texts. *)
Definition first (health_id : string) (ws : list Worker.t) : option Worker.t :=
  List.find (fun w => String.eqb (Worker.health_id w) health_id) ws.

(** The value assigned to [w.registration_date]: the parsed date for a
    string; any other value is no datetime and the statement of the
    commit fails. *)
Definition date_column `{Externals} (registration_date : json) : result datetime :=
  match registration_date with
  | JStr s => match strptime s with
              | Some d => Ok d
              | None => Raise ValueError
              end
  | _ => Raise StatementError
  end.

(** The assignments [w.full_name = full_name] to [w.qr_filename =
    qr_filename] on the row [w]; [w.health_id] is kept. *)
Definition assign (w_health_id : string) (f : Fields.t) (d : datetime)
    (face_filename qr_filename : string) : Worker.t :=
  {| Worker.health_id := w_health_id;
     Worker.full_name := Fields.full_name f;
     Worker.age := Fields.age f;
     Worker.gender := Some (Fields.gender f);
     Worker.phone := Some (Fields.phone f);
     Worker.address := Some (Fields.address f);
     Worker.native_state := Some (Fields.native_state f);
     Worker.blood_group := Some (Fields.blood_group f);
     Worker.marital_status := Some (Fields.marital_status f);
     Worker.language := Some (Fields.language f);
     Worker.financial_status := Some (Fields.financial_status f);
     Worker.allergies := Some (Fields.allergies f);
     Worker.conditions := Some (Fields.conditions f);
     Worker.inherited_diseases := Some (Fields.inherited_diseases f);
     Worker.previous_treatments := Some (Fields.previous_treatments f);
     Worker.vaccination_count := Fields.vaccination_count f;
     Worker.registration_date := d;
     Worker.face_filename := Some face_filename;
     Worker.qr_filename := Some qr_filename |}.

(** The table after the commit of an update of the first row of the
    identifier. *)
Fixpoint update_first (health_id : string) (new : Worker.t) (ws : list Worker.t)
    : list Worker.t :=
  match ws with
  | [] => []
  | w :: rest =>
      if String.eqb (Worker.health_id w) health_id then new :: rest
      else w :: update_first health_id new rest
  end.

(** Lines 197-226 of [create_worker]: the upsert, committed or rolled
    back as a whole. *)
Definition persist `{Externals} (f : Fields.t) (face_filename qr_filename : string)
    (ws : list Worker.t) : result (list Worker.t) :=
  let health_id := Fields.health_id f in
  d ← date_column (Fields.registration_date f);
  match first health_id ws with
  | Some w =>
      Ok (update_first health_id
            (assign (Worker.health_id w) f d face_filename qr_filename) ws)
  | None =>
      Ok ((ws ++ [assign health_id f d face_filename qr_filename])%list)
  end.

(** [POST /api/workers] *)
Definition create_worker `{Externals} (today : string) (data : gmap string json)
    (st : State) : Response * State :=
  match read_body today data with
  | Raise e => (ServerError e, st)
  | Ok (Rejected r) => (r, st)
  | Ok (Accepted f) =>
      let health_id := Fields.health_id f in
      let '(face_filename, fs) :=
        App.save_face health_id (Fields.face_b64 f) (storage st) in
      let qr_text := json_dumps (qr_payload f) in
      match _generate_qr_image qr_text health_id (or_None face_filename) fs with
      | Raise e => (ServerError e, {| workers := workers st; storage := fs |})
      | Ok (qr_filename, fs) =>
          match persist f face_filename qr_filename (workers st) with
          | Raise e => (ServerError e, {| workers := workers st; storage := fs |})
          | Ok ws =>
              (Created health_id
                 ("/api/workers/" +:+ health_id +:+ "/qr.png")
                 (if String.eqb face_filename "" then None
                  else Some ("/api/workers/" +:+ health_id +:+ "/face.png")),
               {| workers := ws; storage := fs |})
          end
      end
  end.

(** [x or ''] for a nullable text column. *)
Definition text_or_empty (x : option string) : string :=
  match x with
  | Some s => s
  | None => ""
  end.

(** The dict [_read_worker] builds from a row of the table. *)
Module Row.
Record t : Type := {
  health_id : string;
  full_name : string;
  age : string;
  gender : string;
  phone : string;
  address : string;
  native_state : string;
  blood_group : string;
  marital_status : string;
  language : string;
  financial_status : string;
  allergies : string;
  conditions : string;
  inherited_diseases : string;
  previous_treatments : string;
  vaccination_count : string;
  registration_date : string;
  face_filename : string;
  qr_filename : string
}.
End Row.

(** [_read_worker(health_id)] *)
Definition _read_worker `{Externals} (health_id : string) (st : State) : option Row.t :=
  match first health_id (workers st) with
  | None => None
  | Some w =>
      Some {| Row.health_id := Worker.health_id w;
              Row.full_name := Worker.full_name w;
              Row.age := App.str_age (Worker.age w ≫= App.or_empty);
              Row.gender := text_or_empty (Worker.gender w);
              Row.phone := text_or_empty (Worker.phone w);
              Row.address := text_or_empty (Worker.address w);
              Row.native_state := text_or_empty (Worker.native_state w);
              Row.blood_group := text_or_empty (Worker.blood_group w);
              Row.marital_status := text_or_empty (Worker.marital_status w);
              Row.language := text_or_empty (Worker.language w);
              Row.financial_status := text_or_empty (Worker.financial_status w);
              Row.allergies := text_or_empty (Worker.allergies w);
              Row.conditions := text_or_empty (Worker.conditions w);
              Row.inherited_diseases := text_or_empty (Worker.inherited_diseases w);
              Row.previous_treatments := text_or_empty (Worker.previous_treatments w);
              Row.vaccination_count := str_of_Z (Worker.vaccination_count w);
              Row.registration_date := strftime (Worker.registration_date w);
              Row.face_filename := text_or_empty (Worker.face_filename w);
              Row.qr_filename := text_or_empty (Worker.qr_filename w) |}
  end.

Definition cells (row : Row.t) : list (string * string) :=
  [ ("health_id", Row.health_id row); ("full_name", Row.full_name row);
    ("age", Row.age row); ("gender", Row.gender row); ("phone", Row.phone row);
    ("address", Row.address row); ("native_state", Row.native_state row);
    ("blood_group", Row.blood_group row); ("marital_status", Row.marital_status row);
    ("language", Row.language row); ("financial_status", Row.financial_status row);
    ("allergies", Row.allergies row); ("conditions", Row.conditions row);
    ("inherited_diseases", Row.inherited_diseases row);
    ("previous_treatments", Row.previous_treatments row);
    ("vaccination_count", Row.vaccination_count row);
    ("registration_date", Row.registration_date row);
    ("face_filename", Row.face_filename row); ("qr_filename", Row.qr_filename row) ].

(** [GET /api/workers/<health_id>] *)
Definition get_worker `{Externals} (health_id : string) (st : State) : Response :=
  match _read_worker health_id st with
  | None => NotFound
  | Some row => JsonRow (cells row)
  end.

(** The payload rebuilt from a stored row. *)
Definition row_payload (row : Row.t) : list (string * json) :=
  [ ("healthId", JStr (Row.health_id row));
    ("fullName", JStr (Row.full_name row));
    ("gender", JStr (Row.gender row));
    ("nativeState", JStr (Row.native_state row));
    ("registrationDate", JStr (Row.registration_date row)) ].

Definition send_file (name : string) (st : State) : Response :=
  match QR_IMAGE_DIR (storage st) !! name with
  | Some png => SendFile png
  | None => ServerError FileNotFoundError
  end.

(** [GET /api/workers/<health_id>/qr.png] *)
Definition get_worker_qr `{Externals} (health_id : string) (st : State) : Response * State :=
  let path := health_id +:+ ".png" in
  match QR_IMAGE_DIR (storage st) !! path with
  | Some _ => (send_file path st, st)
  | None =>
      match _read_worker health_id st with
      | None => (NotFound, st)
      | Some row =>
          let payload := json_dumps (row_payload row) in
          match _generate_qr_image payload health_id
                  (or_None (Row.face_filename row)) (storage st) with
          | Raise e => (ServerError e, st)
          | Ok (_, fs) =>
              let st := {| workers := workers st; storage := fs |} in
              (send_file path st, st)
          end
      end
  end.

End AppBack.

(** ** A sample of the libraries

    One instance of [Externals], to run the handlers on concrete
    requests: canonical base64 (RFC 4648, padded), PNG files recognised by
    their signature and [IHDR] chunk, the byte-mode capacities of the QR
    standard for the levels L and M, and ISO dates [YYYY-MM-DD]. *)

Module Sample.

Definition byte (c : ascii) : Z := Z.of_nat (nat_of_ascii c).
Definition chr (n : Z) : ascii := ascii_of_nat (Z.to_nat n).

Definition b64_val (c : ascii) : option Z :=
  let n := byte c in
  if (65 <=? n) && (n <=? 90) then Some (n - 65)
  else if (97 <=? n) && (n <=? 122) then Some (n - 71)
  else if (48 <=? n) && (n <=? 57) then Some (n + 4)
  else if n =? 43 then Some 62
  else if n =? 47 then Some 63
  else None.

Definition is_pad (c : ascii) : bool := byte c =? 61.

Fixpoint b64decode (s : string) : option string :=
  match s with
  | EmptyString => Some EmptyString
  | String a (String b (String c (String d rest))) =>
      match b64_val a, b64_val b with
      | Some x, Some y =>
          let b1 := chr (x * 4 + y / 16) in
          if is_pad c && is_pad d then
            match rest with
            | EmptyString => Some (String b1 EmptyString)
            | _ => None
            end
          else
            match b64_val c with
            | Some z =>
                let b2 := chr ((y mod 16) * 16 + z / 4) in
                if is_pad d then
                  match rest with
                  | EmptyString => Some (String b1 (String b2 EmptyString))
                  | _ => None
                  end
                else
                  match b64_val d, b64decode rest with
                  | Some u, Some tail =>
                      Some (String b1 (String b2 (String (chr ((z mod 4) * 64 + u)) tail)))
                  | _, _ => None
                  end
            | None => None
            end
      | _, _ => None
      end
  | _ => None
  end.

Definition bytes (s : string) : list Z := byte <$> list_ascii_of_string s.

Definition be32 (l : list Z) : Z :=
  fold_left (fun acc b => acc * 256 + b) l 0.

(** The first 24 bytes of a PNG file: signature, length and name of the
    header chunk, width and height. *)
Definition image_open (b : string) : option (Z * Z) :=
  let l := bytes b in
  if bool_decide (take 8 l = [137; 80; 78; 71; 13; 10; 26; 10])
     && bool_decide (take 4 (drop 12 l) = [73; 72; 68; 82])
     && (24 <=? length l)%nat
  then
    let w := be32 (take 4 (drop 16 l)) in
    let h := be32 (take 4 (drop 20 l)) in
    if (0 <? w) && (0 <? h) then Some (w, h) else None
  else None.

Definition be32_bytes (n : Z) : list Z :=
  [n / 16777216 mod 256; n / 65536 mod 256; n / 256 mod 256; n mod 256].

(** The content of a PNG file of [w] by [h] pixels, up to its sizes. *)
Definition png (w h : Z) : string :=
  string_of_list_ascii
    (chr <$> ([137; 80; 78; 71; 13; 10; 26; 10; 0; 0; 0; 13; 73; 72; 68; 82]
              ++ be32_bytes w ++ be32_bytes h)%list).

Definition capacity_L : list Z :=
  [ 17; 32; 53; 78; 106; 134; 154; 192; 230; 271; 321; 367; 425; 458; 520; 586;
    644; 718; 792; 858; 929; 1003; 1091; 1171; 1273; 1367; 1465; 1528; 1628;
    1732; 1840; 1952; 2068; 2188; 2303; 2431; 2563; 2699; 2809; 2953 ].

Definition capacity_M : list Z :=
  [ 14; 26; 42; 62; 84; 106; 122; 152; 180; 213; 251; 287; 331; 362; 412; 450;
    504; 560; 624; 666; 711; 779; 857; 911; 997; 1059; 1125; 1190; 1264; 1370;
    1452; 1538; 1628; 1722; 1809; 1911; 1989; 2099; 2213; 2331 ].

Definition qr_fits (ec : ErrorCorrection) (v : Z) (c : string) : bool :=
  let table := match ec with
               | ERROR_CORRECT_L => capacity_L
               | ERROR_CORRECT_M => capacity_M
               | _ => []
               end in
  match table !! Z.to_nat (v - 1) with
  | Some cap => (1 <=? v) && (Z.of_nat (String.length c) <=? cap)
  | None => false
  end.

Definition digits (s : string) : option Z := int_digits s false 0.

Definition days_in_month (y m : Z) : Z :=
  if m =? 2 then
    if ((y mod 4 =? 0) && negb (y mod 100 =? 0)) || (y mod 400 =? 0) then 29 else 28
  else if (m =? 4) || (m =? 6) || (m =? 9) || (m =? 11) then 30
  else 31.

Definition strptime (s : string) : option datetime :=
  if bool_decide (String.length s = 10%nat)
     && bool_decide (String.get 4 s = Some "-"%char)
     && bool_decide (String.get 7 s = Some "-"%char)
  then
    match digits (substring 0 4 s), digits (substring 5 2 s), digits (substring 8 2 s) with
    | Some y, Some m, Some d =>
        if (1 <=? y) && (1 <=? m) && (m <=? 12) && (1 <=? d) && (d <=? days_in_month y m)
        then Some {| year := y; month := m; day := d |}
        else None
    | _, _, _ => None
    end
  else None.

Definition pad (width : nat) (z : Z) : string :=
  let s := str_of_Z z in
  string_of_list_ascii (replicate (width - String.length s) "0"%char) +:+ s.

Definition strftime (d : datetime) : string :=
  pad 4 (year d) +:+ "-" +:+ pad 2 (month d) +:+ "-" +:+ pad 2 (day d).

Definition externals : Externals :=
  Build_Externals b64decode image_open qr_fits strptime strftime.

(** Sample requests and states. *)

Definition asha : gmap string json :=
  {[ "healthId" := JStr "W1001"; "fullName" := JStr "Asha Devi";
     "gender" := JStr "Female"; "address" := JStr "Patna";
     "nativeState" := JStr "Bihar"; "registrationDate" := JStr "2024-01-15" ]}.

Definition asha_again : gmap string json :=
  {[ "healthId" := JStr " W1001 "; "fullName" := JStr "Asha Kumari";
     "age" := JInt 31; "gender" := JStr "Female"; "nativeState" := JStr "Bihar";
     "vaccinationCount" := JStr "2" ]}.

Definition asha_bad_age : gmap string json := <["age" := JStr "abc"]> asha.

(** The first 24 bytes of a PNG file of 10 by 10 pixels, as a data URL. *)
Definition small_face : json :=
  JStr "data:image/png;base64,iVBORw0KGgoAAAANSUhEUgAAAAoAAAAK".

Definition asha_with_face : gmap string json := <["faceImage" := small_face]> asha.

Definition nobody : gmap string json :=
  {[ "healthId" := JStr "   "; "fullName" := JStr "Nobody"; "faceImage" := small_face ]}.

(** A row of the CSV file for the worker [W1001], registered with a face
    image. *)
Definition asha_row : App.Row.t :=
  {| App.Row.health_id := "W1001"; App.Row.full_name := "Asha Devi";
     App.Row.age := ""; App.Row.gender := "Female"; App.Row.phone := "";
     App.Row.address := "Patna"; App.Row.native_state := "Bihar";
     App.Row.blood_group := ""; App.Row.marital_status := "";
     App.Row.language := ""; App.Row.financial_status := "";
     App.Row.registration_date := "2024-01-15";
     App.Row.face_filename := "W1001.png"; App.Row.qr_filename := "W1001.png" |}.

(** A state of the flat-file variant whose QR asset was removed. *)
Definition no_cache : App.State :=
  {| App.CSV_FILE := [asha_row];
     App.storage := {| FACE_IMAGE_DIR := {[ "W1001.png" := png 300 200 ]};
                       QR_IMAGE_DIR := ∅ |} |}.

Definition faces (w h : Z) : Storage :=
  {| FACE_IMAGE_DIR := {[ "W1001.png" := png w h ]}; QR_IMAGE_DIR := ∅ |}.

Definition table : AppBack.State :=
  {| AppBack.workers := [];
     AppBack.storage := {| FACE_IMAGE_DIR := ∅; QR_IMAGE_DIR := ∅ |} |}.

End Sample.

(** ** The rest of the service *)

(** *** Face assets ([get_worker_face], identical in both files) *)

Inductive FaceResponse : Type :=
  | FaceNotFound
  | SendFace (image_bytes : string).

(** [GET /api/workers/<health_id>/face.png] *)
Definition get_worker_face (health_id : string) (fs : Storage) : FaceResponse :=
  match FACE_IMAGE_DIR fs !! (health_id +:+ ".png") with
  | Some image_bytes => SendFace image_bytes
  | None => FaceNotFound
  end.

(** *** The base of the returned URLs (lines 212-214 of [app.py], 228-230
    of [app_back.py]) *)

(** [s.rstrip(c)] for a one-character argument. *)
Fixpoint rstrip_char (c0 : ascii) (s : string) : string :=
  match s with
  | String c s' =>
      match rstrip_char c0 s' with
      | EmptyString => if Ascii.eqb c c0 then EmptyString else String c EmptyString
      | t => String c t
      end
  | EmptyString => EmptyString
  end.

(** [s[n:]] *)
Fixpoint drop_chars (n : nat) (s : string) : string :=
  match n, s with
  | S n', String _ s' => drop_chars n' s'
  | _, _ => s
  end.

(** [s.replace(old, new, 1)]: the first occurrence of [old], from the
    left, is replaced. *)
Fixpoint replace_first (old new s : string) {struct s} : string :=
  if String.prefix old s then new +:+ drop_chars (String.length old) s
  else match s with
       | String c s' => String c (replace_first old new s')
       | EmptyString => EmptyString
       end.

(** [base_url] as computed from [request.host_url]. *)
Definition base_url (host_url : string) : string :=
  let base_url := rstrip_char "/" host_url in
  if String.prefix "http://0.0.0.0" base_url || String.prefix "https://0.0.0.0" base_url
  then replace_first "0.0.0.0" "localhost" base_url
  else base_url.

(** *** Appointments and feedback ([src/app_back.py], [src/db.py])

    The tables [doctors], [appointments] and [feedback] beside
    [workers].  No handler deletes or moves a row, so the surrogate key
    of a row is modelled by its position in the table; [created_at] is
    the clock reading handed to the handler. *)

Module Clinic.

Module Doctor.
Record t : Type := {
  code : string;
  full_name : string;
  speciality : option string;
  phone : option string
}.
End Doctor.

Module Appointment.
Record t : Type := {
  worker_id : nat;
  doctor_id : option nat;
  doctor_speciality : option string;
  status : string;
  requested_time : option string;
  created_at : datetime
}.
End Appointment.

Module Feedback.
Record t : Type := {
  worker_id : nat;
  doctor_id : option nat;
  rating : option Z;
  message : option string;
  created_at : datetime
}.
End Feedback.

Record State : Type := {
  registry : AppBack.State;
  doctors : list Doctor.t;
  appointments : list Appointment.t;
  feedback : list Feedback.t
}.

(** What [jsonify(...)], status answers; [Crash] is an exception no
    handler catches, answered 500 by the framework. *)
Inductive Reply : Type :=
  | Message (code : Z) (message : string)
  | Error (code : Z) (error : string)
  | Crash (e : exn).

Definition code_of (r : Reply) : Z :=
  match r with
  | Message code _ => code
  | Error code _ => code
  | Crash _ => 500
  end.

(** [session.query(DBWorker).filter_by(health_id=health_id).first()]
    with the key of the row found. *)
Definition first_worker (health_id : string) (ws : list AppBack.Worker.t)
    : option (nat * AppBack.Worker.t) :=
  list_find (λ w, AppBack.Worker.health_id w = health_id) ws.

(** [POST /api/workers] on the whole database: the registry changes,
    the other tables do not. *)
Definition create_worker `{Externals} (today : string) (data : gmap string json)
    (st : State) : Response * State :=
  let '(r, registry') := AppBack.create_worker today data (registry st) in
  (r, {| registry := registry'; doctors := doctors st;
         appointments := appointments st; feedback := feedback st |}).

(** [POST /api/appointments].  The three members are read before the
    check of the identifier and outside any [try]. *)
Definition create_appointment (now : datetime) (data : gmap string json) (st : State)
    : Reply * State :=
  let read :=
    health_id ← text_field data "healthId";
    speciality ← text_field data "speciality";
    requested_time ← text_field data "requestedTime";
    Ok (health_id, speciality, requested_time) in
  match read with
  | Raise e => (Crash e, st)
  | Ok (health_id, speciality, requested_time) =>
      if String.eqb health_id "" then (Error 400 "healthId required", st) else
      match first_worker health_id (AppBack.workers (registry st)) with
      | None => (Error 404 "Worker not found", st)
      | Some (w_id, _) =>
          let appt :=
            {| Appointment.worker_id := w_id;
               Appointment.doctor_id := None;
               Appointment.doctor_speciality := or_None speciality;
               Appointment.status := "pending";
               Appointment.requested_time := or_None requested_time;
               Appointment.created_at := now |} in
          (Message 201 "Appointment created",
           {| registry := registry st; doctors := doctors st;
              appointments := (appointments st ++ [appt])%list;
              feedback := feedback st |})
      end
  end.

(** [POST /api/feedback] *)
Definition create_feedback (now : datetime) (data : gmap string json) (st : State)
    : Reply * State :=
  let read :=
    health_id ← text_field data "healthId";
    rating ← int_field data "rating";
    message ← text_field data "message";
    Ok (health_id, rating, message) in
  match read with
  | Raise e => (Crash e, st)
  | Ok (health_id, rating, message) =>
      match first_worker health_id (AppBack.workers (registry st)) with
      | None => (Error 404 "Worker not found", st)
      | Some (w_id, _) =>
          let fb :=
            {| Feedback.worker_id := w_id;
               Feedback.doctor_id := None;
               Feedback.rating := App.or_empty rating;
               Feedback.message := or_None message;
               Feedback.created_at := now |} in
          (Message 201 "Feedback submitted",
           {| registry := registry st; doctors := doctors st;
              appointments := appointments st;
              feedback := (feedback st ++ [fb])%list |})
      end
  end.

(** *** [seed_demo_data] ([src/db.py]) *)

(** [f"{i:0Nd}"] for a natural number [i]. *)
Definition zero_padded (width : nat) (i : Z) : string :=
  let s := str_of_Z i in
  string_of_list_ascii (replicate (width - String.length s) "0"%char) +:+ s.

Definition demo_doctor_list : list (string * string * string) :=
  [ ("D001", "Dr. Sharma", "Cardiology");
    ("D002", "Dr. Patel", "Pulmonology");
    ("D003", "Dr. Singh", "General");
    ("D004", "Dr. Rao", "Endocrinology");
    ("D005", "Dr. Iyer", "Orthopedics");
    ("D006", "Dr. Khan", "Dermatology");
    ("D007", "Dr. Das", "Neurology");
    ("D008", "Dr. Nair", "ENT");
    ("D009", "Dr. Banerjee", "Pediatrics");
    ("D010", "Dr. Verma", "Gastroenterology") ].

(** The doctors built by the first loop, [i] counting from 0. *)
Definition demo_doctors : list Doctor.t :=
  imap (λ i '(code, name, spec),
          {| Doctor.code := code; Doctor.full_name := name;
             Doctor.speciality := Some spec;
             Doctor.phone := Some ("90000000" +:+ zero_padded 2 (Z.of_nat i)) |})
       demo_doctor_list.

(** The worker built for [i] in [range(1, 11)]; the registration date is
    the column default, the clock reading [now]. *)
Definition demo_worker (now : datetime) (i : Z) : AppBack.Worker.t :=
  {| AppBack.Worker.health_id := "W10" +:+ zero_padded 2 i;
     AppBack.Worker.full_name := "Demo Worker " +:+ str_of_Z i;
     AppBack.Worker.age := Some (20 + i);
     AppBack.Worker.gender := Some (if i mod 2 =? 0 then "Female" else "Male");
     AppBack.Worker.phone := Some ("98" +:+ zero_padded 8 i);
     AppBack.Worker.address := Some ("#" +:+ str_of_Z i +:+ " Demo Street, City");
     AppBack.Worker.native_state := Some "State";
     AppBack.Worker.blood_group := Some (if i mod 3 =? 0 then "O+" else "B+");
     AppBack.Worker.marital_status := Some (if i mod 2 =? 0 then "Married" else "Single");
     AppBack.Worker.language := Some "en";
     AppBack.Worker.financial_status := Some (if i mod 3 =? 0 then "BPL" else "APL");
     AppBack.Worker.allergies := Some (if i mod 4 =? 0 then "Dust" else "");
     AppBack.Worker.conditions := Some (if i mod 5 =? 0 then "Hypertension" else "");
     AppBack.Worker.inherited_diseases := Some (if i mod 6 =? 0 then "Diabetes" else "");
     AppBack.Worker.previous_treatments := Some "Vitamin supplements";
     AppBack.Worker.vaccination_count := i mod 4;
     AppBack.Worker.registration_date := now;
     AppBack.Worker.face_filename := None;
     AppBack.Worker.qr_filename := None |}.

Definition demo_workers (now : datetime) : list AppBack.Worker.t :=
  demo_worker now <$> seqZ 1 10.

(** The appointment and the feedback of the [i]-th new worker
    ([enumerate(workers, start=1)]); [w0] and [d0] are the keys of the
    first new worker and of the first new doctor. *)
Definition demo_appointment (now : datetime) (w0 d0 : nat) (i : nat) : Appointment.t :=
  {| Appointment.worker_id := w0 + (i - 1);
     Appointment.doctor_id := Some (d0 + i mod length demo_doctors)%nat;
     Appointment.doctor_speciality :=
       demo_doctors !! (i mod length demo_doctors)%nat ≫= Doctor.speciality;
     Appointment.status := "pending";
     Appointment.requested_time := Some "2025-10-01 10:00";
     Appointment.created_at := now |}.

Definition demo_feedback (now : datetime) (w0 d0 : nat) (i : nat) : Feedback.t :=
  {| Feedback.worker_id := w0 + (i - 1);
     Feedback.doctor_id := Some (d0 + i mod length demo_doctors)%nat;
     Feedback.rating := Some (Z.of_nat (i mod 5) + 1);
     Feedback.message := Some "Demo feedback";
     Feedback.created_at := now |}.

(** [seed_demo_data(Session)]: nothing when the table of workers has a
    row; otherwise the four tables are filled in one transaction, which
    fails as a whole when a code of a new doctor is taken (the column is
    unique). *)
Definition seed_demo_data (now : datetime) (st : State) : result State :=
  let ws := AppBack.workers (registry st) in
  if (0 <? length ws)%nat then Ok st else
  if bool_decide (Exists (λ d, Doctor.code d ∈ Doctor.code <$> demo_doctors) (doctors st))
  then Raise StatementError else
  let w0 := length ws in
  let d0 := length (doctors st) in
  let indices := seq 1 (length (demo_workers now)) in
  Ok {| registry := {| AppBack.workers := (ws ++ demo_workers now)%list;
                       AppBack.storage := AppBack.storage (registry st) |};
        doctors := (doctors st ++ demo_doctors)%list;
        appointments := (appointments st ++ (demo_appointment now w0 d0 <$> indices))%list;
        feedback := (feedback st ++ (demo_feedback now w0 d0 <$> indices))%list |}.

(** The database before the first start: four empty tables. *)
Definition empty : State :=
  {| registry := {| AppBack.workers := [];
                    AppBack.storage := {| FACE_IMAGE_DIR := ∅; QR_IMAGE_DIR := ∅ |} |};
     doctors := []; appointments := []; feedback := [] |}.

(** The constraints the schema of [src/db.py] declares: the unique
    columns [workers.health_id] and [doctors.code], and the foreign keys
    of [appointments] and [feedback] ([worker_id] is a key of [workers];
    [doctor_id], when not NULL, is a key of [doctors]). *)
Definition unique_columns (st : State) : Prop :=
  NoDup (AppBack.Worker.health_id <$> AppBack.workers (registry st))
  ∧ NoDup (Doctor.code <$> doctors st).

Definition foreign_key {A : Type} (table : list A) (key : nat) : Prop :=
  (key < length table)%nat.

Definition foreign_keys (st : State) : Prop :=
  Forall (λ a, foreign_key (AppBack.workers (registry st)) (Appointment.worker_id a)
               ∧ ∀ d, Appointment.doctor_id a = Some d → foreign_key (doctors st) d)
         (appointments st)
  ∧ Forall (λ f, foreign_key (AppBack.workers (registry st)) (Feedback.worker_id f)
                 ∧ ∀ d, Feedback.doctor_id f = Some d → foreign_key (doctors st) d)
           (feedback st).

(** The states of the database: seeded from the empty one at the first
    start, seeded again at every later start, and changed in between by
    the three POST handlers. *)
Inductive reachable `{Externals} : State -> Prop :=
  | reachable_seeded now st : seed_demo_data now empty = Ok st -> reachable st
  | reachable_restart now st st' :
      reachable st -> seed_demo_data now st = Ok st' -> reachable st'
  | reachable_worker today data st :
      reachable st -> reachable (snd (create_worker today data st))
  | reachable_appointment now data st :
      reachable st -> reachable (snd (create_appointment now data st))
  | reachable_feedback now data st :
      reachable st -> reachable (snd (create_feedback now data st)).

End Clinic.


(** Sample requests and states of the database. *)
Module Demo.

Definition now : datetime := {| year := 2025; month := 9; day := 1 |}.

(** The database after the first start. *)
Definition seeded : Clinic.State :=
  {| Clinic.registry :=
       {| AppBack.workers := Clinic.demo_workers now;
          AppBack.storage := {| FACE_IMAGE_DIR := ∅; QR_IMAGE_DIR := ∅ |} |};
     Clinic.doctors := Clinic.demo_doctors;
     Clinic.appointments := Clinic.demo_appointment now 0 0 <$> seq 1 10;
     Clinic.feedback := Clinic.demo_feedback now 0 0 <$> seq 1 10 |}.

(** A worker registers under a new identifier. *)
Definition meena : gmap string json :=
  {[ "healthId" := JStr "W2001"; "fullName" := JStr "Meena Kumari";
     "registrationDate" := JStr "2025-09-01" ]}.

(** A registration whose date is no [YYYY-MM-DD] text. *)
Definition asha_bad_date : gmap string json :=
  <["registrationDate" := JStr "15/01/2024"]> Sample.asha.

Definition registered : Clinic.State :=
  snd (Clinic.create_worker (H := Sample.externals) "2025-09-01" meena seeded).

Definition visit : gmap string json :=
  {[ "healthId" := JStr " W2001 "; "speciality" := JStr "Cardiology" ]}.

Definition review : gmap string json :=
  {[ "healthId" := JStr "W2001"; "rating" := JInt 7; "message" := JStr " fine " ]}.

(** The database after the appointment and the feedback. *)
Definition served : Clinic.State :=
  snd (Clinic.create_feedback now review
         (snd (Clinic.create_appointment now visit registered))).

End Demo.

(** ** Proof steps

    [step_bind H] opens the first bind of the computation in [H];
    [skip_text_fields] passes the text members of a body that raise
    nothing. *)

Ltac step_bind H :=
  match type of H with
  | context [mbind _ ?m] => destruct m eqn:?; simpl in H; try discriminate H
  end.

Ltac skip_text_fields :=
  repeat match goal with
         | |- context [mbind _ (text_field ?d ?k)] =>
             destruct (text_field d k); simpl; [|by eexists]
         end.

(** ** Trimming *)

Lemma lstrip_empty s :
  lstrip s = "" ↔ Forall (λ c, py_isspace c = true) (list_ascii_of_string s).
Proof.
  induction s as [|c s IH]; simpl.
  - split; [constructor|done].
  - destruct (py_isspace c) eqn:Hc.
    + rewrite IH, Forall_cons. split; [by split|by intros [_ ?]].
    + split; [discriminate|]. rewrite Forall_cons. intros [? _]. congruence.
Qed.

Lemma rstrip_empty s :
  rstrip s = "" ↔ Forall (λ c, py_isspace c = true) (list_ascii_of_string s).
Proof.
  induction s as [|c s IH]; simpl.
  - split; [constructor|done].
  - rewrite Forall_cons, <- IH. destruct (rstrip s); [|split; [discriminate|by intros [_ ?]]].
    destruct (py_isspace c); [by split|]. split; [discriminate|]. by intros [? _].
Qed.

Lemma lstrip_head s c t : lstrip s = String c t → py_isspace c = false.
Proof.
  induction s as [|c' s IH]; simpl; [discriminate|].
  destruct (py_isspace c') eqn:Hc; [done|]. by intros [= <- _].
Qed.

(** A text is empty after trimming exactly when it is made of whitespace
    only. *)
Lemma strip_empty s :
  strip s = "" ↔ Forall (λ c, py_isspace c = true) (list_ascii_of_string s).
Proof.
  unfold strip. split.
  - intros Hr%rstrip_empty. destruct (lstrip s) as [|c t] eqn:Hl.
    + by apply lstrip_empty.
    + apply lstrip_head in Hl. simpl in Hr. apply Forall_cons in Hr as [? _]. congruence.
  - intros Hl%lstrip_empty. by rewrite Hl.
Qed.

(** ** The embedding on small inputs *)

Example strip_ex : strip "  W1001 " = "W1001" ∧ strip "   " = "" ∧ strip "a b" = "a b".
Proof. repeat split; reflexivity. Qed.

Example int_of_string_ex :
  int_of_string " 42 " = Some 42 ∧ int_of_string "-1_000" = Some (-1000)
  ∧ int_of_string "+7" = Some 7 ∧ int_of_string "007" = Some 7
  ∧ int_of_string "abc" = None ∧ int_of_string "1__0" = None
  ∧ int_of_string "12.5" = None ∧ int_of_string "- 5" = None.
Proof. repeat split; reflexivity. Qed.

Example str_of_Z_ex : str_of_Z 0 = "0" ∧ str_of_Z (-5) = "-5" ∧ str_of_Z 120 = "120".
Proof. repeat split; reflexivity. Qed.

Example json_dumps_ex :
  json_dumps [("a", JStr "x"); ("n", JInt 5); ("b", JBool true)]
  = String "{" (quoted "a" +:+ ": " +:+ quoted "x" +:+ ", " +:+ quoted "n" +:+ ": 5, "
                +:+ quoted "b" +:+ ": true}")
  ∧ String.length (quoted (String (ascii_of_nat 10) "x")) = 5%nat.
Proof. split; reflexivity. Qed.

Example thumbnail_ex :
  thumbnail (200, 100) (64, 64) = (64, 32)
  ∧ thumbnail (300, 200) (101, 101) = (101, 67)
  ∧ thumbnail (10, 10) (101, 101) = (10, 10)
  ∧ thumbnail (1000, 3) (64, 64) = (64, 1).
Proof. repeat split; reflexivity. Qed.

Example sample_externals_ex :
  Sample.b64decode "aGVsbG8=" = Some "hello"
  ∧ Sample.b64decode "aGVsbG8" = None
  ∧ Sample.image_open (Sample.png 300 200) = Some (300, 200)
  ∧ Sample.image_open "hello" = None
  ∧ Sample.strptime "2024-01-15" = Some {| year := 2024; month := 1; day := 15 |}
  ∧ Sample.strptime "2023-02-29" = None
  ∧ Sample.strftime {| year := 2024; month := 1; day := 5 |} = "2024-01-05"
  ∧ Sample.qr_fits ERROR_CORRECT_M 2 "hello" = true
  ∧ Sample.qr_fits ERROR_CORRECT_M 1 "a text of more than 14 bytes" = false.
Proof. repeat split; vm_compute; reflexivity. Qed.

Section Assets.
Context `{Externals}.

Lemma make_fit_Ok qr content qr' :
  make_fit qr content = Ok qr' →
  error_correction qr' = error_correction qr ∧ box_size qr' = box_size qr
  ∧ border qr' = border qr ∧ version qr ≤ version qr' ≤ 40
  ∧ qr_fits (error_correction qr) (version qr') content = true.
Proof.
  unfold make_fit. destruct (List.find _ _) as [v|] eqn:Hfind; [|discriminate].
  intros [= <-]. simpl. apply find_some in Hfind as [Hin Hfits].
  apply list_elem_of_In, elem_of_seqZ in Hin. repeat split; try done; lia.
Qed.

Lemma make_fit_Raise qr content e :
  make_fit qr content = Raise e → e = DataOverflowError.
Proof.
  unfold make_fit. destruct (List.find _ _); [discriminate|]. by intros [= <-].
Qed.

Lemma _generate_qr_image_Ok content health_id face_filename fs name fs' :
  _generate_qr_image content health_id face_filename fs = Ok (name, fs') →
  ∃ qr, make_fit worker_qr content = Ok qr
    ∧ name = health_id +:+ ".png"
    ∧ FACE_IMAGE_DIR fs' = FACE_IMAGE_DIR fs
    ∧ QR_IMAGE_DIR fs' =
        <[name := {| pic_data := content; pic_qr := qr;
                     pic_overlay :=
                       face_overlay {| pic_data := content; pic_qr := qr;
                                       pic_overlay := None |} face_filename fs |}]>
          (QR_IMAGE_DIR fs).
Proof.
  unfold _generate_qr_image. destruct (make_fit worker_qr content) as [qr|e]; simpl; [|discriminate].
  intros [= <- <-]. exists qr. done.
Qed.
End Assets.

(** ** The thumbnail *)

Lemma round_aspect_bounds num den closer t :
  0 < den → 0 <= num → num <= t * den → 1 <= t →
  1 <= round_aspect num den closer <= t.
Proof.
  intros Hden Hnum Hle Ht. unfold round_aspect.
  assert (num / den <= t) by (apply Z.div_le_upper_bound; lia).
  assert (- (- num / den) <= t).
  { enough (- t <= - num / den) by lia. apply Z.div_le_lower_bound; lia. }
  destruct (closer _ _); lia.
Qed.

(** The longer side of a thumbnail in a square box: the box's side when
    the image exceeds the box, the image's own longer side otherwise. *)
Lemma thumbnail_longer_side w h t :
  0 < w → 0 < h → 1 <= t →
  Z.max (fst (thumbnail (w, h) (t, t))) (snd (thumbnail (w, h) (t, t)))
  = Z.min (Z.max w h) t.
Proof.
  intros Hw Hh Ht. unfold thumbnail.
  destruct ((w <=? t) && (h <=? t)) eqn:Hfit.
  - apply andb_true_iff in Hfit as [?%Z.leb_le ?%Z.leb_le]. simpl. lia.
  - apply andb_false_iff in Hfit.
    destruct (w * t <=? t * h) eqn:Hside.
    + apply Z.leb_le in Hside. assert (w <= h) by nia.
      match goal with
      | |- context [round_aspect ?n ?d ?c] =>
          pose proof (round_aspect_bounds n d c t)
      end.
      simpl. destruct Hfit as [?%Z.leb_gt | ?%Z.leb_gt]; nia.
    + apply Z.leb_gt in Hside. assert (h < w) by nia.
      match goal with
      | |- context [round_aspect ?n ?d ?c] =>
          pose proof (round_aspect_bounds n d c t)
      end.
      simpl. destruct Hfit as [?%Z.leb_gt | ?%Z.leb_gt]; nia.
Qed.

Lemma thumbnail_fits w h t :
  w <= t → h <= t → thumbnail (w, h) (t, t) = (w, h).
Proof.
  intros ?%Z.leb_le ?%Z.leb_le. unfold thumbnail.
  by destruct (w <=? t), (h <=? t).
Qed.

Section Composition.
Context `{Externals}.

Lemma face_overlay_Some qr_img name fs face_bytes face_size :
  name ≠ "" →
  FACE_IMAGE_DIR fs !! name = Some face_bytes →
  image_open face_bytes = Some face_size →
  face_overlay qr_img (Some name) fs =
    Some {| ov_face := face_bytes;
            ov_thumb := thumbnail face_size
                          (Z.max 64 (fst (size qr_img) / 6), Z.max 64 (fst (size qr_img) / 6));
            ov_bordered :=
              (fst (thumbnail face_size
                      (Z.max 64 (fst (size qr_img) / 6), Z.max 64 (fst (size qr_img) / 6))) + 8,
               snd (thumbnail face_size
                      (Z.max 64 (fst (size qr_img) / 6), Z.max 64 (fst (size qr_img) / 6))) + 8);
            ov_pos :=
              (fst (size qr_img)
               - (fst (thumbnail face_size
                         (Z.max 64 (fst (size qr_img) / 6), Z.max 64 (fst (size qr_img) / 6))) + 8)
               - 8,
               snd (size qr_img)
               - (snd (thumbnail face_size
                         (Z.max 64 (fst (size qr_img) / 6), Z.max 64 (fst (size qr_img) / 6))) + 8)
               - 8) |}.
Proof.
  intros Hname Hfile Hopen. unfold face_overlay.
  destruct (String.eqb_spec name ""); [done|]. by rewrite Hfile, Hopen.
Qed.

Lemma face_overlay_unreadable qr_img name fs :
  (FACE_IMAGE_DIR fs !! name = None
   ∨ ∃ b, FACE_IMAGE_DIR fs !! name = Some b ∧ image_open b = None) →
  face_overlay qr_img (Some name) fs = None.
Proof.
  intros Hbad. unfold face_overlay. destruct (String.eqb name ""); [done|].
  destruct Hbad as [-> | (b & -> & ->)]; done.
Qed.



(** C6.  Every image stored by [_generate_qr_image] (the only maker of
    worker QRs) has level M, boxes of 10 units, a border of 4 modules and
    a version from 2 up; every image sent by the generic endpoint has
    level L, the same box and border, and a version from 1 up; the
    version requested for a worker QR is larger than the generic one. *)
Theorem worker_and_generic_symbols :
  (∀ content health_id face_filename fs out fs',
     _generate_qr_image content health_id face_filename fs = Ok (out, fs') →
     ∃ img, QR_IMAGE_DIR fs' !! out = Some img
       ∧ error_correction (pic_qr img) = ERROR_CORRECT_M
       ∧ box_size (pic_qr img) = 10 ∧ border (pic_qr img) = 4
       ∧ 2 <= version (pic_qr img))
  ∧ (∀ qr_data img,
       generate_qr_generic qr_data = SendFile img →
       error_correction (pic_qr img) = ERROR_CORRECT_L
       ∧ box_size (pic_qr img) = 10 ∧ border (pic_qr img) = 4
       ∧ 1 <= version (pic_qr img))
  ∧ version generic_qr < version worker_qr
  ∧ error_correction worker_qr = ERROR_CORRECT_M
  ∧ error_correction generic_qr = ERROR_CORRECT_L.
Proof.
  split; [|split; [|done]].
  - intros content health_id face_filename fs out fs' Hgen.
    apply _generate_qr_image_Ok in Hgen as (qr & Hfit & -> & _ & Hqrs).
    apply make_fit_Ok in Hfit as (Hec & Hbox & Hborder & Hv & _).
    eexists. split; [by rewrite Hqrs, lookup_insert_eq|]. simpl in *.
    repeat split; try done; lia.
  - intros qr_data img. unfold generate_qr_generic.
    destruct qr_data as [qr_data|]; [|discriminate].
    destruct (String.eqb qr_data ""); [discriminate|].
    destruct (make_fit generic_qr qr_data) as [qr|] eqn:Hfit; [|discriminate].
    intros [= <-].
    apply make_fit_Ok in Hfit as (Hec & Hbox & Hborder & Hv & _). simpl in *.
    repeat split; try done; lia.
Qed.

End Composition.

(** ** The CSV upsert *)

Lemma replace_rows_eq new rows :
  App.replace_rows new rows
  = ((λ row, if String.eqb (App.Row.health_id row) (App.Row.health_id new)
             then new else row) <$> rows,
     bool_decide (App.Row.health_id new ∈ App.Row.health_id <$> rows)).
Proof.
  induction rows as [|row rest IH]; [done|].
  cbn [App.replace_rows]. rewrite IH, !fmap_cons.
  destruct (String.eqb_spec (App.Row.health_id row) (App.Row.health_id new)) as [Heq|Hne].
  - f_equal. symmetry. apply bool_decide_eq_true. rewrite Heq. apply elem_of_cons. by left.
  - f_equal. apply bool_decide_ext. rewrite elem_of_cons. split; [by right|]. intros [?|?]; [congruence|done].
Qed.

Lemma upsert_ids new rows :
  App.Row.health_id <$> App.upsert new rows
  = if bool_decide (App.Row.health_id new ∈ App.Row.health_id <$> rows)
    then App.Row.health_id <$> rows
    else ((App.Row.health_id <$> rows) ++ [App.Row.health_id new])%list.
Proof.
  unfold App.upsert. rewrite replace_rows_eq.
  assert (App.Row.health_id <$>
            ((λ row, if String.eqb (App.Row.health_id row) (App.Row.health_id new)
                     then new else row) <$> rows)
          = App.Row.health_id <$> rows) as Hids.
  { rewrite <- list_fmap_compose. apply list_fmap_ext. intros ? row ?. simpl.
    by destruct (String.eqb_spec (App.Row.health_id row) (App.Row.health_id new)). }
  case_bool_decide; [done|]. by rewrite fmap_app, Hids.
Qed.

(** The upsert keeps the identifiers of the rows distinct. *)
Lemma upsert_NoDup new rows :
  NoDup (App.Row.health_id <$> rows) →
  NoDup (App.Row.health_id <$> App.upsert new rows).
Proof.
  intros Hnodup. rewrite upsert_ids. case_bool_decide; [done|].
  apply NoDup_app. split; [done|]. split; [|apply NoDup_singleton].
  intros x Hx ->%list_elem_of_singleton. done.
Qed.

Lemma filter_id_absent (hid : string) (rows : list App.Row.t) :
  hid ∉ App.Row.health_id <$> rows →
  filter (λ row, App.Row.health_id row = hid) rows = [].
Proof.
  induction rows as [|row rest IH]; [done|].
  rewrite fmap_cons, not_elem_of_cons. intros [Hne Hrest].
  rewrite filter_cons_False by done. by apply IH.
Qed.

Lemma swap_absent new (rows : list App.Row.t) :
  App.Row.health_id new ∉ App.Row.health_id <$> rows →
  (λ row, if String.eqb (App.Row.health_id row) (App.Row.health_id new)
          then new else row) <$> rows = rows.
Proof.
  induction rows as [|row rest IH]; [done|].
  rewrite !fmap_cons, not_elem_of_cons. intros [Hne Hrest].
  rewrite IH by done.
  by destruct (String.eqb_spec (App.Row.health_id row) (App.Row.health_id new)).
Qed.

(** After the upsert the file holds exactly one row of the identifier,
    the new one, when it held at most one before. *)
Lemma upsert_filter new rows :
  NoDup (App.Row.health_id <$> rows) →
  filter (λ row, App.Row.health_id row = App.Row.health_id new) (App.upsert new rows)
  = [new].
Proof.
  intros Hnodup. unfold App.upsert. rewrite replace_rows_eq.
  case_bool_decide as Hin.
  - induction rows as [|row rest IH]; [by apply elem_of_nil in Hin|].
    rewrite fmap_cons in Hnodup, Hin. apply NoDup_cons in Hnodup as [Hfresh Hnodup].
    rewrite fmap_cons.
    destruct (String.eqb_spec (App.Row.health_id row) (App.Row.health_id new)) as [Heq|Hne].
    + rewrite filter_cons_True by done. rewrite Heq in Hfresh.
      by rewrite swap_absent, filter_id_absent.
    + rewrite filter_cons_False by done. apply IH; [done|].
      apply elem_of_cons in Hin as [?|?]; [congruence|done].
  - rewrite swap_absent, filter_app, filter_id_absent by done.
    by rewrite filter_cons_True, filter_nil.
Qed.

(** The rows of the other identifiers are left as they were. *)
Lemma upsert_others new rows :
  filter (λ row, App.Row.health_id row ≠ App.Row.health_id new) (App.upsert new rows)
  = filter (λ row, App.Row.health_id row ≠ App.Row.health_id new) rows.
Proof.
  unfold App.upsert. rewrite replace_rows_eq.
  assert (filter (λ row, App.Row.health_id row ≠ App.Row.health_id new)
            ((λ row, if String.eqb (App.Row.health_id row) (App.Row.health_id new)
                     then new else row) <$> rows)
          = filter (λ row, App.Row.health_id row ≠ App.Row.health_id new) rows) as Hmap.
  { induction rows as [|row rest IH]; [done|]. rewrite fmap_cons.
    destruct (String.eqb_spec (App.Row.health_id row) (App.Row.health_id new)) as [Heq|Hne].
    - rewrite !filter_cons_False by (intros ?; congruence). done.
    - rewrite !filter_cons_True by done. by rewrite IH. }
  case_bool_decide; [done|].
  rewrite filter_app, Hmap, filter_cons_False, filter_nil, app_nil_r by (intros ?; congruence).
  done.
Qed.

(** ** Reading the request body *)

Lemma App_read_body_Rejected today data r :
  App.read_body today data = Ok (App.Rejected r) →
  r = BadRequest "healthId is required" ∧ text_field data "healthId" = Ok "".
Proof.
  intros Hread. unfold App.read_body in Hread.
  destruct (text_field data "healthId") as [health_id|] eqn:Hid; simpl in Hread;
    [|discriminate].
  destruct (String.eqb_spec health_id "") as [Heq|Hne]; [|repeat step_bind Hread].
  subst health_id. by injection Hread as <-.
Qed.

Lemma App_read_body_Accepted today data f :
  App.read_body today data = Ok (App.Accepted f) →
  App.Fields.health_id f ≠ ""
  ∧ text_field data "healthId" = Ok (App.Fields.health_id f)
  ∧ text_field data "fullName" = Ok (App.Fields.full_name f)
  ∧ (∃ a, int_field data "age" = Ok a ∧ App.Fields.age f = App.or_empty a)
  ∧ text_field data "gender" = Ok (App.Fields.gender f)
  ∧ text_field data "phone" = Ok (App.Fields.phone f)
  ∧ text_field data "address" = Ok (App.Fields.address f)
  ∧ text_field data "nativeState" = Ok (App.Fields.native_state f)
  ∧ text_field data "bloodGroup" = Ok (App.Fields.blood_group f)
  ∧ text_field data "maritalStatus" = Ok (App.Fields.marital_status f)
  ∧ text_field data "language" = Ok (App.Fields.language f)
  ∧ text_field data "financialStatus" = Ok (App.Fields.financial_status f)
  ∧ App.Fields.registration_date f = get_or data "registrationDate" (JStr today)
  ∧ App.Fields.face_b64 f = data !! "faceImage".
Proof.
  intros Hread. unfold App.read_body in Hread.
  destruct (text_field data "healthId") as [health_id|] eqn:Hid; simpl in Hread;
    [|discriminate].
  destruct (String.eqb_spec health_id ""); [discriminate|]. repeat step_bind Hread.
  injection Hread as <-. simpl. repeat split; try done. by eexists.
Qed.

Lemma AppBack_read_body_Rejected today data r :
  AppBack.read_body today data = Ok (AppBack.Rejected r) →
  r = BadRequest "healthId is required" ∧ text_field data "healthId" = Ok "".
Proof.
  intros Hread. unfold AppBack.read_body in Hread.
  destruct (text_field data "healthId") as [health_id|] eqn:Hid; simpl in Hread;
    [|discriminate].
  destruct (String.eqb_spec health_id "") as [Heq|Hne]; [|repeat step_bind Hread].
  subst health_id. by injection Hread as <-.
Qed.

Lemma AppBack_read_body_Accepted today data f :
  AppBack.read_body today data = Ok (AppBack.Accepted f) →
  AppBack.Fields.health_id f ≠ ""
  ∧ text_field data "healthId" = Ok (AppBack.Fields.health_id f)
  ∧ text_field data "fullName" = Ok (AppBack.Fields.full_name f)
  ∧ (∃ a, int_field data "age" = Ok a ∧ AppBack.Fields.age f = App.or_empty a)
  ∧ text_field data "gender" = Ok (AppBack.Fields.gender f)
  ∧ text_field data "phone" = Ok (AppBack.Fields.phone f)
  ∧ text_field data "address" = Ok (AppBack.Fields.address f)
  ∧ text_field data "nativeState" = Ok (AppBack.Fields.native_state f)
  ∧ text_field data "bloodGroup" = Ok (AppBack.Fields.blood_group f)
  ∧ text_field data "maritalStatus" = Ok (AppBack.Fields.marital_status f)
  ∧ text_field data "language" = Ok (AppBack.Fields.language f)
  ∧ text_field data "financialStatus" = Ok (AppBack.Fields.financial_status f)
  ∧ text_field data "allergies" = Ok (AppBack.Fields.allergies f)
  ∧ text_field data "conditions" = Ok (AppBack.Fields.conditions f)
  ∧ text_field data "inheritedDiseases" = Ok (AppBack.Fields.inherited_diseases f)
  ∧ text_field data "previousTreatments" = Ok (AppBack.Fields.previous_treatments f)
  ∧ int_field data "vaccinationCount" = Ok (AppBack.Fields.vaccination_count f)
  ∧ AppBack.Fields.registration_date f = get_or data "registrationDate" (JStr today)
  ∧ AppBack.Fields.face_b64 f = data !! "faceImage".
Proof.
  intros Hread. unfold AppBack.read_body in Hread.
  destruct (text_field data "healthId") as [health_id|] eqn:Hid; simpl in Hread;
    [|discriminate].
  destruct (String.eqb_spec health_id ""); [discriminate|]. repeat step_bind Hread.
  injection Hread as <-. simpl. repeat split; try done. by eexists.
Qed.

Lemma omitted_get_or data k d : omitted data k → get_or data k d = d.
Proof.
  unfold omitted, get_or. destruct (data !! k) as [v|]; [|done]. by intros ->.
Qed.

Lemma omitted_int_field data k : omitted data k → int_field data k = Ok 0.
Proof. intros Hk. unfold int_field. by rewrite omitted_get_or. Qed.

Lemma not_an_integer_int_field data k :
  not_an_integer data k → int_field data k = Raise ValueError.
Proof.
  intros (s & Hk & Hs & Hint). unfold int_field, get_or. rewrite Hk. simpl.
  destruct (String.eqb_spec s ""); [done|]. simpl. by rewrite Hint.
Qed.

Lemma blank_health_id_text_field data :
  blank_health_id data ↔ text_field data "healthId" = Ok "".
Proof.
  unfold blank_health_id, omitted, text_field, get_or.
  destruct (data !! "healthId") as [[|b|z|s]|]; simpl; try done.
  - destruct b; simpl; split; done.
  - destruct (z =? 0); simpl; split; done.
  - destruct (String.eqb_spec s "") as [->|]; simpl; [done|].
    split; [by intros ->|by intros [= ->]].
Qed.

(** ** The registration handlers *)

Section Handlers.
Context `{Externals}.

Lemma App_create_worker_blank today data st :
  blank_health_id data →
  App.create_worker today data st = (BadRequest "healthId is required", st).
Proof.
  intros Hblank%blank_health_id_text_field.
  unfold App.create_worker, App.read_body. by rewrite Hblank.
Qed.

Lemma AppBack_create_worker_blank today data st :
  blank_health_id data →
  AppBack.create_worker today data st = (BadRequest "healthId is required", st).
Proof.
  intros Hblank%blank_health_id_text_field.
  unfold AppBack.create_worker, AppBack.read_body. by rewrite Hblank.
Qed.

Lemma App_create_worker_201 today data st r st' :
  App.create_worker today data st = (r, st') → status r = 201 →
  ∃ f face_filename fs1 fs2,
    App.read_body today data = Ok (App.Accepted f)
    ∧ App.save_face (App.Fields.health_id f) (App.Fields.face_b64 f) (App.storage st)
      = (face_filename, fs1)
    ∧ _generate_qr_image (json_dumps (App.qr_payload f)) (App.Fields.health_id f)
        (or_None face_filename) fs1
      = Ok (App.Fields.health_id f +:+ ".png", fs2)
    ∧ st' = {| App.CSV_FILE :=
                 App.upsert (App.new_row f face_filename (App.Fields.health_id f +:+ ".png"))
                            (App.CSV_FILE st);
               App.storage := fs2 |}.
Proof.
  unfold App.create_worker.
  destruct (App.read_body today data) as [[r0|f]|e] eqn:Hread.
  - apply App_read_body_Rejected in Hread as [-> _]. by intros [= <- <-].
  - destruct (App.save_face _ _ _) as [face_filename fs1] eqn:Hface.
    destruct (_generate_qr_image _ _ _ fs1) as [[qr_filename fs2]|e] eqn:Hgen.
    + intros [= <- <-] _. exists f, face_filename, fs1, fs2.
      pose proof (_generate_qr_image_Ok _ _ _ _ _ _ Hgen) as (qr & _ & -> & _). done.
    + by intros [= <- <-].
  - by intros [= <- <-].
Qed.

Lemma AppBack_create_worker_201 today data st r st' :
  AppBack.create_worker today data st = (r, st') → status r = 201 →
  ∃ f face_filename fs1 fs2 ws,
    AppBack.read_body today data = Ok (AppBack.Accepted f)
    ∧ App.save_face (AppBack.Fields.health_id f) (AppBack.Fields.face_b64 f)
        (AppBack.storage st)
      = (face_filename, fs1)
    ∧ _generate_qr_image (json_dumps (AppBack.qr_payload f)) (AppBack.Fields.health_id f)
        (or_None face_filename) fs1
      = Ok (AppBack.Fields.health_id f +:+ ".png", fs2)
    ∧ AppBack.persist f face_filename (AppBack.Fields.health_id f +:+ ".png")
        (AppBack.workers st) = Ok ws
    ∧ st' = {| AppBack.workers := ws; AppBack.storage := fs2 |}.
Proof.
  unfold AppBack.create_worker.
  destruct (AppBack.read_body today data) as [[r0|f]|e] eqn:Hread.
  - apply AppBack_read_body_Rejected in Hread as [-> _]. by intros [= <- <-].
  - destruct (App.save_face _ _ _) as [face_filename fs1] eqn:Hface.
    destruct (_generate_qr_image _ _ _ fs1) as [[qr_filename fs2]|e] eqn:Hgen.
    + pose proof (_generate_qr_image_Ok _ _ _ _ _ _ Hgen) as (qr & _ & -> & _).
      destruct (AppBack.persist _ _ _ _) as [ws|e] eqn:Hpersist.
      * intros [= <- <-] _. by exists f, face_filename, fs1, fs2, ws.
      * by intros [= <- <-].
    + by intros [= <- <-].
  - by intros [= <- <-].
Qed.


(** *** The table upsert *)

Lemma first_None health_id (ws : list AppBack.Worker.t) :
  AppBack.first health_id ws = None ↔ health_id ∉ AppBack.Worker.health_id <$> ws.
Proof.
  unfold AppBack.first. induction ws as [|w rest IH]; simpl.
  - split; [|done]. intros _ ?%elem_of_nil. done.
  - rewrite not_elem_of_cons.
    destruct (String.eqb_spec (AppBack.Worker.health_id w) health_id) as [Heq|Hne].
    + split; [discriminate|]. by intros [? _].
    + rewrite IH. split; [|by intros [_ ?]]. intros ?. split; [congruence|done].
Qed.

Lemma first_Some health_id (ws : list AppBack.Worker.t) w :
  AppBack.first health_id ws = Some w →
  AppBack.Worker.health_id w = health_id ∧ health_id ∈ AppBack.Worker.health_id <$> ws.
Proof.
  unfold AppBack.first. intros [Hin Heq%String.eqb_eq]%find_some. split; [done|].
  rewrite <- Heq. apply list_elem_of_fmap_2. by apply list_elem_of_In.
Qed.

Lemma update_first_absent health_id new (ws : list AppBack.Worker.t) :
  health_id ∉ AppBack.Worker.health_id <$> ws →
  AppBack.update_first health_id new ws = ws.
Proof.
  induction ws as [|w rest IH]; [done|].
  rewrite fmap_cons, not_elem_of_cons. intros [Hne Hrest]. simpl.
  destruct (String.eqb_spec (AppBack.Worker.health_id w) health_id); [congruence|].
  by rewrite IH.
Qed.

Lemma update_first_ids new (ws : list AppBack.Worker.t) :
  AppBack.Worker.health_id <$> AppBack.update_first (AppBack.Worker.health_id new) new ws
  = AppBack.Worker.health_id <$> ws.
Proof.
  induction ws as [|w rest IH]; [done|]. simpl.
  destruct (String.eqb_spec (AppBack.Worker.health_id w) (AppBack.Worker.health_id new))
    as [Heq|Hne]; rewrite !fmap_cons; [by rewrite Heq|by rewrite IH].
Qed.

Lemma filter_worker_absent (health_id : string) (ws : list AppBack.Worker.t) :
  health_id ∉ AppBack.Worker.health_id <$> ws →
  filter (λ w, AppBack.Worker.health_id w = health_id) ws = [].
Proof.
  induction ws as [|w rest IH]; [done|].
  rewrite fmap_cons, not_elem_of_cons. intros [Hne Hrest].
  rewrite filter_cons_False by done. by apply IH.
Qed.

Lemma update_first_filter new (ws : list AppBack.Worker.t) :
  NoDup (AppBack.Worker.health_id <$> ws) →
  AppBack.Worker.health_id new ∈ AppBack.Worker.health_id <$> ws →
  filter (λ w, AppBack.Worker.health_id w = AppBack.Worker.health_id new)
         (AppBack.update_first (AppBack.Worker.health_id new) new ws)
  = [new].
Proof.
  induction ws as [|w rest IH]; [by intros _ ?%elem_of_nil|].
  rewrite fmap_cons, NoDup_cons, elem_of_cons. intros [Hfresh Hnodup] Hin. simpl.
  destruct (String.eqb_spec (AppBack.Worker.health_id w) (AppBack.Worker.health_id new))
    as [Heq|Hne].
  - rewrite filter_cons_True by done. rewrite Heq in Hfresh.
    by rewrite filter_worker_absent.
  - rewrite filter_cons_False by done. apply IH; [done|].
    destruct Hin as [?|?]; [congruence|done].
Qed.

Lemma update_first_others health_id new (ws : list AppBack.Worker.t) :
  AppBack.Worker.health_id new = health_id →
  filter (λ w, AppBack.Worker.health_id w ≠ health_id)
         (AppBack.update_first health_id new ws)
  = filter (λ w, AppBack.Worker.health_id w ≠ health_id) ws.
Proof.
  intros Hnew. induction ws as [|w rest IH]; [done|]. simpl.
  destruct (String.eqb_spec (AppBack.Worker.health_id w) health_id) as [Heq|Hne].
  - by rewrite !filter_cons_False by (intros ?; congruence).
  - by rewrite !filter_cons_True, IH by done.
Qed.

(** What a committed upsert leaves in the table. *)
Lemma persist_Ok f face_filename qr_filename ws ws' :
  NoDup (AppBack.Worker.health_id <$> ws) →
  AppBack.persist f face_filename qr_filename ws = Ok ws' →
  ∃ d, AppBack.date_column (AppBack.Fields.registration_date f) = Ok d
    ∧ filter (λ w, AppBack.Worker.health_id w = AppBack.Fields.health_id f) ws'
      = [AppBack.assign (AppBack.Fields.health_id f) f d face_filename qr_filename]
    ∧ filter (λ w, AppBack.Worker.health_id w ≠ AppBack.Fields.health_id f) ws'
      = filter (λ w, AppBack.Worker.health_id w ≠ AppBack.Fields.health_id f) ws
    ∧ NoDup (AppBack.Worker.health_id <$> ws').
Proof.
  intros Hnodup. unfold AppBack.persist.
  destruct (AppBack.date_column _) as [d|] eqn:Hdate; simpl; [|discriminate].
  destruct (AppBack.first _ ws) as [w|] eqn:Hfirst.
  - apply first_Some in Hfirst as [Hw Hin]. rewrite Hw. intros [= <-]. exists d.
    split; [done|].
    pose proof (update_first_filter
                  (AppBack.assign (AppBack.Fields.health_id f) f d face_filename qr_filename)
                  ws Hnodup Hin) as Hfilter.
    pose proof (update_first_ids
                  (AppBack.assign (AppBack.Fields.health_id f) f d face_filename qr_filename)
                  ws) as Hids.
    simpl in Hfilter, Hids. split; [done|]. split; [by apply update_first_others|].
    by rewrite Hids.
  - apply first_None in Hfirst. intros [= <-]. exists d. split; [done|].
    rewrite !filter_app, filter_worker_absent by done.
    rewrite filter_cons_True, filter_nil by done.
    rewrite (filter_cons_False _ _ []), filter_nil, app_nil_r by (simpl; intros ?; congruence).
    split; [done|]. split; [done|].
    rewrite fmap_app. apply NoDup_app. split; [done|]. split; [|apply NoDup_singleton].
    intros x Hx ->%list_elem_of_singleton. done.
Qed.


(** Every reachable state of the flat-file variant has distinct
    identifiers. *)
Lemma reachable_NoDup st :
  App.reachable st → NoDup (App.Row.health_id <$> App.CSV_FILE st).
Proof.
  induction 1 as [|today data st _ IH|health_id st _ IH].
  - apply NoDup_nil_2.
  - unfold App.create_worker.
    destruct (App.read_body today data) as [[r0|f]|e]; simpl; try done.
    destruct (App.save_face _ _ _) as [face_filename fs1].
    destruct (_generate_qr_image _ _ _ fs1) as [[qr_filename fs2]|e]; simpl; [|done].
    by apply upsert_NoDup.
  - unfold App.get_worker_qr.
    destruct (QR_IMAGE_DIR _ !! _); simpl; [done|].
    destruct (App._read_worker _ _); simpl; [|done].
    destruct (_generate_qr_image _ _ _ _) as [[? ?]|]; simpl; done.
Qed.

(** *** Reading a record back *)

Lemma find_upsert new rows :
  List.find (λ row, String.eqb (App.Row.health_id row) (App.Row.health_id new))
            (App.upsert new rows) = Some new.
Proof.
  unfold App.upsert. rewrite replace_rows_eq. case_bool_decide as Hin.
  - induction rows as [|row rest IH]; [by apply elem_of_nil in Hin|].
    rewrite fmap_cons in Hin. rewrite fmap_cons. simpl.
    destruct (String.eqb_spec (App.Row.health_id row) (App.Row.health_id new)) as [Heq|Hne].
    + by rewrite String.eqb_refl.
    + destruct (String.eqb_spec (App.Row.health_id row) (App.Row.health_id new)); [done|].
      apply IH. apply elem_of_cons in Hin as [?|?]; [congruence|done].
  - rewrite swap_absent by done.
    induction rows as [|row rest IH]; simpl; [by rewrite String.eqb_refl|].
    rewrite fmap_cons, not_elem_of_cons in Hin. destruct Hin as [Hne Hrest].
    destruct (String.eqb_spec (App.Row.health_id row) (App.Row.health_id new)); [congruence|].
    by apply IH.
Qed.

Lemma App_read_after_create today data st r st' :
  App.create_worker today data st = (r, st') → status r = 201 →
  ∃ f face_filename,
    App.read_body today data = Ok (App.Accepted f)
    ∧ App._read_worker (App.Fields.health_id f) st'
      = Some (App.new_row f face_filename (App.Fields.health_id f +:+ ".png")).
Proof.
  intros Hc Hr.
  apply App_create_worker_201 in Hc as (f & face & ? & ? & Hread & _ & _ & ->); [|done].
  exists f, face. split; [done|]. unfold App._read_worker. simpl.
  apply (find_upsert (App.new_row f face (App.Fields.health_id f +:+ ".png"))).
Qed.

Lemma first_update_first new (ws : list AppBack.Worker.t) :
  AppBack.Worker.health_id new ∈ AppBack.Worker.health_id <$> ws →
  AppBack.first (AppBack.Worker.health_id new)
    (AppBack.update_first (AppBack.Worker.health_id new) new ws) = Some new.
Proof.
  unfold AppBack.first.
  induction ws as [|w rest IH]; [by intros ?%elem_of_nil|].
  rewrite fmap_cons, elem_of_cons. intros Hin. simpl.
  destruct (String.eqb_spec (AppBack.Worker.health_id w) (AppBack.Worker.health_id new))
    as [Heq|Hne]; simpl.
  - by rewrite String.eqb_refl.
  - destruct (String.eqb_spec (AppBack.Worker.health_id w) (AppBack.Worker.health_id new));
      [done|].
    apply IH. destruct Hin as [?|?]; [congruence|done].
Qed.

Lemma first_app_new new (ws : list AppBack.Worker.t) :
  AppBack.Worker.health_id new ∉ AppBack.Worker.health_id <$> ws →
  AppBack.first (AppBack.Worker.health_id new) (ws ++ [new])%list = Some new.
Proof.
  unfold AppBack.first.
  induction ws as [|w rest IH]; simpl; [by rewrite String.eqb_refl|].
  rewrite not_elem_of_cons. intros [Hne Hrest].
  destruct (String.eqb_spec (AppBack.Worker.health_id w) (AppBack.Worker.health_id new));
    [congruence|].
  by apply IH.
Qed.

Lemma first_persist f face_filename qr_filename ws ws' :
  AppBack.persist f face_filename qr_filename ws = Ok ws' →
  ∃ d, AppBack.date_column (AppBack.Fields.registration_date f) = Ok d
    ∧ AppBack.first (AppBack.Fields.health_id f) ws'
      = Some (AppBack.assign (AppBack.Fields.health_id f) f d face_filename qr_filename).
Proof.
  unfold AppBack.persist.
  destruct (AppBack.date_column _) as [d|] eqn:Hdate; simpl; [|discriminate].
  destruct (AppBack.first _ ws) as [w|] eqn:Hfirst.
  - apply first_Some in Hfirst as [Hw Hin]. rewrite Hw. intros [= <-]. exists d.
    split; [done|].
    apply (first_update_first
             (AppBack.assign (AppBack.Fields.health_id f) f d face_filename qr_filename)).
    done.
  - apply first_None in Hfirst. intros [= <-]. exists d. split; [done|].
    apply (first_app_new
             (AppBack.assign (AppBack.Fields.health_id f) f d face_filename qr_filename)).
    done.
Qed.

Lemma AppBack_read_after_create today data st r st' :
  AppBack.create_worker today data st = (r, st') → status r = 201 →
  ∃ f face_filename d,
    AppBack.read_body today data = Ok (AppBack.Accepted f)
    ∧ AppBack.first (AppBack.Fields.health_id f) (AppBack.workers st')
      = Some (AppBack.assign (AppBack.Fields.health_id f) f d face_filename
                (AppBack.Fields.health_id f +:+ ".png")).
Proof.
  intros Hc Hr.
  apply AppBack_create_worker_201 in Hc
    as (f & face & ? & ? & ws & Hread & _ & _ & Hp & ->); [|done].
  apply first_persist in Hp as (d & _ & Hfirst). by exists f, face, d.
Qed.

(** C3, as amended.  The text encoded into the QR symbol stored by an
    accepted registration is the dump of nine members in the flat-file
    variant (identifier, name, gender, address, native state, blood
    group, marital status, financial status, registration date) and of
    five members in the relational variant (identifier, name, gender,
    native state, registration date), taken from the normalized
    submission. *)
Theorem qr_payload_members :
  (∀ today data (st st' : App.State) r,
     App.create_worker today data st = (r, st') → status r = 201 →
     ∃ f img,
       App.read_body today data = Ok (App.Accepted f)
       ∧ QR_IMAGE_DIR (App.storage st') !! (App.Fields.health_id f +:+ ".png") = Some img
       ∧ pic_data img =
           json_dumps
             [ ("healthId", JStr (App.Fields.health_id f));
               ("fullName", JStr (App.Fields.full_name f));
               ("gender", JStr (App.Fields.gender f));
               ("address", JStr (App.Fields.address f));
               ("nativeState", JStr (App.Fields.native_state f));
               ("bloodGroup", JStr (App.Fields.blood_group f));
               ("maritalStatus", JStr (App.Fields.marital_status f));
               ("financialStatus", JStr (App.Fields.financial_status f));
               ("registrationDate", App.Fields.registration_date f) ])
  ∧ (∀ today data (st st' : AppBack.State) r,
       AppBack.create_worker today data st = (r, st') → status r = 201 →
       ∃ f img,
         AppBack.read_body today data = Ok (AppBack.Accepted f)
         ∧ QR_IMAGE_DIR (AppBack.storage st') !! (AppBack.Fields.health_id f +:+ ".png")
           = Some img
         ∧ pic_data img =
             json_dumps
               [ ("healthId", JStr (AppBack.Fields.health_id f));
                 ("fullName", JStr (AppBack.Fields.full_name f));
                 ("gender", JStr (AppBack.Fields.gender f));
                 ("nativeState", JStr (AppBack.Fields.native_state f));
                 ("registrationDate", AppBack.Fields.registration_date f) ]).
Proof.
  split.
  - intros today data st st' r Hc Hr.
    apply App_create_worker_201 in Hc as (f & face & ? & fs2 & Hread & _ & Hgen & ->); [|done].
    apply _generate_qr_image_Ok in Hgen as (qr & _ & _ & _ & Hqrs).
    exists f. eexists. split; [done|]. simpl. rewrite Hqrs, lookup_insert_eq. done.
  - intros today data st st' r Hc Hr.
    apply AppBack_create_worker_201 in Hc
      as (f & face & ? & fs2 & ws & Hread & _ & Hgen & _ & ->); [|done].
    apply _generate_qr_image_Ok in Hgen as (qr & _ & _ & _ & Hqrs).
    exists f. eexists. split; [done|]. simpl. rewrite Hqrs, lookup_insert_eq. done.
Qed.

(** *** Age and vaccination count *)

Lemma App_bad_age today data st :
  ¬ blank_health_id data → not_an_integer data "age" →
  ∃ e, App.create_worker today data st = (ServerError e, st).
Proof.
  intros Hblank Hage%not_an_integer_int_field.
  rewrite blank_health_id_text_field in Hblank.
  unfold App.create_worker, App.read_body.
  destruct (text_field data "healthId") as [health_id|] eqn:Hid; simpl; [|by eexists].
  destruct (String.eqb_spec health_id "") as [->|]; [done|].
  skip_text_fields. rewrite Hage. simpl. by eexists.
Qed.

Lemma AppBack_bad_number today data st :
  ¬ blank_health_id data →
  not_an_integer data "age" ∨ not_an_integer data "vaccinationCount" →
  ∃ e, AppBack.create_worker today data st = (ServerError e, st).
Proof.
  intros Hblank Hbad.
  rewrite blank_health_id_text_field in Hblank.
  unfold AppBack.create_worker, AppBack.read_body.
  destruct (text_field data "healthId") as [health_id|] eqn:Hid; simpl; [|by eexists].
  destruct (String.eqb_spec health_id "") as [->|]; [done|].
  skip_text_fields.
  destruct (int_field data "age") as [age|] eqn:Hage; simpl; [|by eexists].
  skip_text_fields.
  destruct Hbad as [Hbad%not_an_integer_int_field|Hbad%not_an_integer_int_field];
    [congruence|].
  rewrite Hbad. simpl. by eexists.
Qed.


(** *** An age of zero *)

Lemma get_or_insert_ne data k k' v d :
  k ≠ k' → get_or (<[k := v]> data) k' d = get_or (delete k data) k' d.
Proof. intros Hne. unfold get_or. by rewrite lookup_insert_ne, lookup_delete_ne. Qed.

Lemma text_field_insert_ne data k k' v :
  k ≠ k' → text_field (<[k := v]> data) k' = text_field (delete k data) k'.
Proof. intros Hne. unfold text_field. by rewrite get_or_insert_ne. Qed.

Lemma int_field_insert_ne data k k' v :
  k ≠ k' → int_field (<[k := v]> data) k' = int_field (delete k data) k'.
Proof. intros Hne. unfold int_field. by rewrite get_or_insert_ne. Qed.

Lemma App_read_body_zero_age today data v :
  v = JInt 0 ∨ v = JStr "0" →
  App.read_body today (<["age" := v]> data) = App.read_body today (delete "age" data).
Proof.
  intros Hv. unfold App.read_body.
  repeat match goal with
         | |- context [text_field (<["age" := v]> data) ?k] =>
             rewrite (text_field_insert_ne data "age" k v) by discriminate
         | |- context [int_field (<["age" := v]> data) "vaccinationCount"] =>
             rewrite (int_field_insert_ne data "age" "vaccinationCount" v) by discriminate
         | |- context [get_or (<["age" := v]> data) "registrationDate" ?d] =>
             rewrite (get_or_insert_ne data "age" "registrationDate" v d) by discriminate
         end.
  rewrite lookup_insert_ne, lookup_delete_ne by discriminate.
  assert (int_field (<["age" := v]> data) "age" = int_field (delete "age" data) "age")
    as ->; [|done].
  unfold int_field, get_or. rewrite lookup_insert_eq, lookup_delete_eq.
  by destruct Hv as [-> | ->].
Qed.

Lemma AppBack_read_body_zero_age today data v :
  v = JInt 0 ∨ v = JStr "0" →
  AppBack.read_body today (<["age" := v]> data)
  = AppBack.read_body today (delete "age" data).
Proof.
  intros Hv. unfold AppBack.read_body.
  repeat match goal with
         | |- context [text_field (<["age" := v]> data) ?k] =>
             rewrite (text_field_insert_ne data "age" k v) by discriminate
         | |- context [int_field (<["age" := v]> data) "vaccinationCount"] =>
             rewrite (int_field_insert_ne data "age" "vaccinationCount" v) by discriminate
         | |- context [get_or (<["age" := v]> data) "registrationDate" ?d] =>
             rewrite (get_or_insert_ne data "age" "registrationDate" v d) by discriminate
         end.
  rewrite lookup_insert_ne, lookup_delete_ne by discriminate.
  assert (int_field (<["age" := v]> data) "age" = int_field (delete "age" data) "age")
    as ->; [|done].
  unfold int_field, get_or. rewrite lookup_insert_eq, lookup_delete_eq.
  by destruct Hv as [-> | ->].
Qed.

(** C10.  A submission whose age is the number 0 or the string ["0"] is
    handled exactly as the same submission without an age (same answer,
    same state), in both variants; once accepted, the stored age is the
    empty cell in the CSV file and NULL in the table, and reading the
    record back shows an empty age. *)
Theorem zero_age_is_absent today data v :
  v = JInt 0 ∨ v = JStr "0" →
  (∀ st : App.State,
     App.create_worker today (<["age" := v]> data) st
     = App.create_worker today (delete "age" data) st)
  ∧ (∀ st : AppBack.State,
       AppBack.create_worker today (<["age" := v]> data) st
       = AppBack.create_worker today (delete "age" data) st)
  ∧ (∀ (st st' : App.State) r,
       App.create_worker today (<["age" := v]> data) st = (r, st') → status r = 201 →
       ∃ f row,
         App.read_body today (<["age" := v]> data) = Ok (App.Accepted f)
         ∧ App._read_worker (App.Fields.health_id f) st' = Some row
         ∧ App.Row.age row = "")
  ∧ (∀ (st st' : AppBack.State) r,
       AppBack.create_worker today (<["age" := v]> data) st = (r, st') → status r = 201 →
       ∃ f w row,
         AppBack.read_body today (<["age" := v]> data) = Ok (AppBack.Accepted f)
         ∧ AppBack.first (AppBack.Fields.health_id f) (AppBack.workers st') = Some w
         ∧ AppBack.Worker.age w = None
         ∧ AppBack._read_worker (AppBack.Fields.health_id f) st' = Some row
         ∧ AppBack.Row.age row = "").
Proof.
  intros Hv.
  assert (int_field (<["age" := v]> data) "age" = Ok 0) as Hzero.
  { unfold int_field, get_or. rewrite lookup_insert_eq. by destruct Hv as [-> | ->]. }
  split; [|split; [|split]].
  - intros st. unfold App.create_worker. by rewrite App_read_body_zero_age.
  - intros st. unfold AppBack.create_worker. by rewrite AppBack_read_body_zero_age.
  - intros st st' r Hc Hr.
    apply App_read_after_create in Hc as (f & face & Hread & Hrow); [|done].
    exists f. eexists. split; [done|]. split; [done|]. simpl.
    apply App_read_body_Accepted in Hread as (_ & _ & _ & (a & Ha & ->) & _).
    rewrite Hzero in Ha. by injection Ha as <-.
  - intros st st' r Hc Hr.
    apply AppBack_read_after_create in Hc as (f & face & d & Hread & Hrow); [|done].
    exists f. eexists. eexists. split; [done|]. split; [done|].
    apply AppBack_read_body_Accepted in Hread as (_ & _ & _ & (a & Ha & Hage) & _).
    rewrite Hzero in Ha. injection Ha as <-.
    split; [by simpl|]. unfold AppBack._read_worker. rewrite Hrow.
    split; [done|]. simpl. by rewrite Hage.
Qed.

(** *** The QR cache *)

Lemma _generate_qr_image_fit content health_id face_filename fs qr :
  make_fit worker_qr content = Ok qr →
  _generate_qr_image content health_id face_filename fs
  = Ok (health_id +:+ ".png",
        {| FACE_IMAGE_DIR := FACE_IMAGE_DIR fs;
           QR_IMAGE_DIR :=
             <[health_id +:+ ".png" :=
                 {| pic_data := content; pic_qr := qr;
                    pic_overlay :=
                      face_overlay {| pic_data := content; pic_qr := qr;
                                      pic_overlay := None |} face_filename fs |}]>
               (QR_IMAGE_DIR fs) |}).
Proof. intros Hfit. unfold _generate_qr_image. by rewrite Hfit. Qed.

Lemma App_get_worker_qr_404 health_id st :
  status (fst (App.get_worker_qr health_id st)) = 404
  ↔ QR_IMAGE_DIR (App.storage st) !! (health_id +:+ ".png") = None
    ∧ App._read_worker health_id st = None.
Proof.
  unfold App.get_worker_qr, App.send_file.
  destruct (QR_IMAGE_DIR (App.storage st) !! _) as [png|] eqn:Hqr.
  - simpl. split; [done|]. by intros [? _].
  - destruct (App._read_worker health_id st) as [row|]; [|done].
    split; [|by intros [_ ?]].
    destruct (_generate_qr_image _ _ _ _) as [[out fs]|e] eqn:Hgen; [|done].
    apply _generate_qr_image_Ok in Hgen as (qr & _ & -> & _ & Hqrs).
    simpl. by rewrite Hqrs, lookup_insert_eq.
Qed.

Lemma AppBack_get_worker_qr_404 health_id st :
  status (fst (AppBack.get_worker_qr health_id st)) = 404
  ↔ QR_IMAGE_DIR (AppBack.storage st) !! (health_id +:+ ".png") = None
    ∧ AppBack._read_worker health_id st = None.
Proof.
  unfold AppBack.get_worker_qr, AppBack.send_file.
  destruct (QR_IMAGE_DIR (AppBack.storage st) !! _) as [png|] eqn:Hqr.
  - simpl. split; [done|]. by intros [? _].
  - destruct (AppBack._read_worker health_id st) as [row|]; [|done].
    split; [|by intros [_ ?]].
    destruct (_generate_qr_image _ _ _ _) as [[out fs]|e] eqn:Hgen; [|done].
    apply _generate_qr_image_Ok in Hgen as (qr & _ & -> & _ & Hqrs).
    simpl. by rewrite Hqrs, lookup_insert_eq.
Qed.

Lemma App_get_worker_qr_hit health_id st png :
  QR_IMAGE_DIR (App.storage st) !! (health_id +:+ ".png") = Some png →
  App.get_worker_qr health_id st = (SendFile png, st).
Proof. intros Hqr. unfold App.get_worker_qr, App.send_file. by rewrite Hqr. Qed.

Lemma AppBack_get_worker_qr_hit health_id st png :
  QR_IMAGE_DIR (AppBack.storage st) !! (health_id +:+ ".png") = Some png →
  AppBack.get_worker_qr health_id st = (SendFile png, st).
Proof. intros Hqr. unfold AppBack.get_worker_qr, AppBack.send_file. by rewrite Hqr. Qed.


End Handlers.

(** ** The CSV header *)

(** C9, as amended.  The header of the CSV file is a fixed list of
    distinct column names, 14 in the flat-file variant and 19 in the
    relational variant, from [health_id] to [qr_filename]; a row of the
    flat file has one cell per column, in the order of the header. *)
Theorem csv_header_columns :
  length App.FIELDNAMES = 14%nat
  ∧ length AppBack.csv_header = 19%nat
  ∧ head App.FIELDNAMES = Some "health_id" ∧ last App.FIELDNAMES = Some "qr_filename"
  ∧ head AppBack.csv_header = Some "health_id"
  ∧ last AppBack.csv_header = Some "qr_filename"
  ∧ NoDup App.FIELDNAMES ∧ NoDup AppBack.csv_header
  ∧ (∀ row, fst <$> App.cells row = App.FIELDNAMES)
  ∧ (∀ row, fst <$> AppBack.cells row = AppBack.csv_header).
Proof.
  repeat split; try done.
  - apply (bool_decide_unpack (NoDup App.FIELDNAMES)). by vm_compute.
  - apply (bool_decide_unpack (NoDup AppBack.csv_header)). by vm_compute.
Qed.

(** ** The theorems at sample requests *)





Lemma worker_and_generic_symbols_witness :
  (∃ out fs',
     _generate_qr_image (H := Sample.externals) "W1001" "W1001" None
       (App.storage App.initial) = Ok (out, fs')
     ∧ ∃ img, QR_IMAGE_DIR fs' !! out = Some img
         ∧ error_correction (pic_qr img) = ERROR_CORRECT_M
         ∧ box_size (pic_qr img) = 10 ∧ border (pic_qr img) = 4
         ∧ 2 <= version (pic_qr img))
  ∧ (∃ img,
       generate_qr_generic (H := Sample.externals) (Some "hello") = SendFile img
       ∧ error_correction (pic_qr img) = ERROR_CORRECT_L
       ∧ box_size (pic_qr img) = 10 ∧ border (pic_qr img) = 4
       ∧ 1 <= version (pic_qr img)).
Proof.
  split.
  - eexists _, _. split; [vm_compute; reflexivity|].
    apply (proj1 (worker_and_generic_symbols (H := Sample.externals))
             "W1001" "W1001" None (App.storage App.initial)).
    vm_compute. reflexivity.
  - eexists. split; [vm_compute; reflexivity|].
    apply (proj1 (proj2 (worker_and_generic_symbols (H := Sample.externals)))
             (Some "hello")).
    vm_compute. reflexivity.
Defined.

Lemma qr_payload_members_witness :
  (∃ f img,
     App.read_body "2024-02-01" Sample.asha = Ok (App.Accepted f)
     ∧ QR_IMAGE_DIR
         (App.storage (snd (App.create_worker (H := Sample.externals) "2024-02-01"
                              Sample.asha App.initial)))
         !! (App.Fields.health_id f +:+ ".png") = Some img
     ∧ pic_data img =
         json_dumps
           [ ("healthId", JStr (App.Fields.health_id f));
             ("fullName", JStr (App.Fields.full_name f));
             ("gender", JStr (App.Fields.gender f));
             ("address", JStr (App.Fields.address f));
             ("nativeState", JStr (App.Fields.native_state f));
             ("bloodGroup", JStr (App.Fields.blood_group f));
             ("maritalStatus", JStr (App.Fields.marital_status f));
             ("financialStatus", JStr (App.Fields.financial_status f));
             ("registrationDate", App.Fields.registration_date f) ])
  ∧ (∃ f img,
       AppBack.read_body "2024-02-01" Sample.asha = Ok (AppBack.Accepted f)
       ∧ QR_IMAGE_DIR
           (AppBack.storage (snd (AppBack.create_worker (H := Sample.externals)
                                    "2024-02-01" Sample.asha Sample.table)))
           !! (AppBack.Fields.health_id f +:+ ".png") = Some img
       ∧ pic_data img =
           json_dumps
             [ ("healthId", JStr (AppBack.Fields.health_id f));
               ("fullName", JStr (AppBack.Fields.full_name f));
               ("gender", JStr (AppBack.Fields.gender f));
               ("nativeState", JStr (AppBack.Fields.native_state f));
               ("registrationDate", AppBack.Fields.registration_date f) ]).
Proof.
  split.
  - apply (proj1 (qr_payload_members (H := Sample.externals)) "2024-02-01" Sample.asha
             App.initial _
             (fst (App.create_worker (H := Sample.externals) "2024-02-01" Sample.asha
                     App.initial))).
    + apply surjective_pairing.
    + vm_compute. reflexivity.
  - apply (proj2 (qr_payload_members (H := Sample.externals)) "2024-02-01" Sample.asha
             Sample.table _
             (fst (AppBack.create_worker (H := Sample.externals) "2024-02-01" Sample.asha
                     Sample.table))).
    + apply surjective_pairing.
    + vm_compute. reflexivity.
Defined.

(** C3 is not what the relational variant does: its QR text has five
    members and differs from the dump of the nine members. *)
Lemma relational_payload_has_five_members :
  ∃ st' img,
    AppBack.create_worker (H := Sample.externals) "2024-02-01" Sample.asha Sample.table
    = (Created "W1001" "/api/workers/W1001/qr.png" None, st')
    ∧ QR_IMAGE_DIR (AppBack.storage st') !! "W1001.png" = Some img
    ∧ pic_data img =
        json_dumps
          [ ("healthId", JStr "W1001"); ("fullName", JStr "Asha Devi");
            ("gender", JStr "Female"); ("nativeState", JStr "Bihar");
            ("registrationDate", JStr "2024-01-15") ]
    ∧ String.eqb (pic_data img)
        (json_dumps
           [ ("healthId", JStr "W1001"); ("fullName", JStr "Asha Devi");
             ("gender", JStr "Female"); ("address", JStr "Patna");
             ("nativeState", JStr "Bihar"); ("bloodGroup", JStr "");
             ("maritalStatus", JStr ""); ("financialStatus", JStr "");
             ("registrationDate", JStr "2024-01-15") ]) = false.
Proof.
  eexists _, _. split; [vm_compute; reflexivity|].
  split; [vm_compute; reflexivity|]. split; vm_compute; reflexivity.
Qed.




(** C9 is not what the code has: the header of the flat-file variant has
    14 columns, not 16. *)
Lemma flat_header_has_14_columns :
  length App.FIELDNAMES = 14%nat ∧ Nat.eqb (length App.FIELDNAMES) 16 = false.
Proof. split; reflexivity. Qed.

Lemma zero_age_is_absent_witness :
  (∀ st : App.State,
     App.create_worker (H := Sample.externals) "2024-02-01"
       (<["age" := JStr "0"]> Sample.asha) st
     = App.create_worker (H := Sample.externals) "2024-02-01"
         (delete "age" Sample.asha) st)
  ∧ (∃ f row,
       App.read_body "2024-02-01" (<["age" := JStr "0"]> Sample.asha)
       = Ok (App.Accepted f)
       ∧ App._read_worker (App.Fields.health_id f)
           (snd (App.create_worker (H := Sample.externals) "2024-02-01"
                   (<["age" := JStr "0"]> Sample.asha) App.initial)) = Some row
       ∧ App.Row.age row = "")
  ∧ (∃ f w row,
       AppBack.read_body "2024-02-01" (<["age" := JStr "0"]> Sample.asha)
       = Ok (AppBack.Accepted f)
       ∧ AppBack.first (AppBack.Fields.health_id f)
           (AppBack.workers
              (snd (AppBack.create_worker (H := Sample.externals) "2024-02-01"
                      (<["age" := JStr "0"]> Sample.asha) Sample.table))) = Some w
       ∧ AppBack.Worker.age w = None
       ∧ AppBack._read_worker (H := Sample.externals) (AppBack.Fields.health_id f)
           (snd (AppBack.create_worker (H := Sample.externals) "2024-02-01"
                   (<["age" := JStr "0"]> Sample.asha) Sample.table)) = Some row
       ∧ AppBack.Row.age row = "").
Proof.
  pose proof (zero_age_is_absent (H := Sample.externals) "2024-02-01" Sample.asha
                (JStr "0") (or_intror eq_refl)) as (Happ & _ & Hrow & Hw).
  split; [exact Happ|]. split.
  - apply (Hrow App.initial _
             (fst (App.create_worker (H := Sample.externals) "2024-02-01"
                     (<["age" := JStr "0"]> Sample.asha) App.initial))).
    + apply surjective_pairing.
    + vm_compute. reflexivity.
  - apply (Hw Sample.table _
             (fst (AppBack.create_worker (H := Sample.externals) "2024-02-01"
                     (<["age" := JStr "0"]> Sample.asha) Sample.table))).
    + apply surjective_pairing.
    + vm_compute. reflexivity.
Defined.


(** * Further properties of the service *)

(** ** Face assets *)

Section Faces.
Context `{Externals}.

Lemma png_name_not_empty health_id : health_id +:+ ".png" ≠ "".
Proof. by destruct health_id. Qed.

Lemma or_None_png health_id : or_None (health_id +:+ ".png") = Some (health_id +:+ ".png").
Proof. unfold or_None. by destruct health_id. Qed.

(** What [_save_face_image] does to the storage does not depend on the
    storage: it either writes nothing, or writes the same bytes under
    [<health_id>.png]. *)
Lemma _save_face_image_cases health_id v :
  (∀ fs, _save_face_image health_id v fs = ("", fs))
  ∨ ∃ image_bytes, ∀ fs,
      _save_face_image health_id v fs
      = (health_id +:+ ".png",
         {| FACE_IMAGE_DIR := <[health_id +:+ ".png" := image_bytes]> (FACE_IMAGE_DIR fs);
            QR_IMAGE_DIR := QR_IMAGE_DIR fs |}).
Proof.
  unfold _save_face_image. destruct v as [|b|z|s]; try by left.
  destruct (b64decode _) as [image_bytes|]; [right|by left]. by exists image_bytes.
Qed.

Lemma save_face_cases health_id face_b64 :
  (∀ fs, App.save_face health_id face_b64 fs = ("", fs))
  ∨ ∃ image_bytes, ∀ fs,
      App.save_face health_id face_b64 fs
      = (health_id +:+ ".png",
         {| FACE_IMAGE_DIR := <[health_id +:+ ".png" := image_bytes]> (FACE_IMAGE_DIR fs);
            QR_IMAGE_DIR := QR_IMAGE_DIR fs |}).
Proof.
  unfold App.save_face. destruct face_b64 as [v|]; [|by left].
  destruct (truthy v); [|by left]. apply _save_face_image_cases.
Qed.


Lemma after_comma_None s :
  Forall (λ c, c ≠ ","%char) (list_ascii_of_string s) → after_comma s = None.
Proof.
  induction s as [|c s IH]; simpl; [done|].
  rewrite Forall_cons. intros [Hc Hs].
  destruct (Ascii.eqb_spec c ","); [done|]. by apply IH.
Qed.

Lemma upto_comma_id s :
  Forall (λ c, c ≠ ","%char) (list_ascii_of_string s) → upto_comma s = s.
Proof.
  induction s as [|c s IH]; simpl; [done|].
  rewrite Forall_cons. intros [Hc Hs].
  destruct (Ascii.eqb_spec c ","); [done|]. by rewrite IH.
Qed.

Lemma after_comma_app prefix rest :
  Forall (λ c, c ≠ ","%char) (list_ascii_of_string prefix) →
  after_comma (prefix +:+ "," +:+ rest) = Some rest.
Proof.
  induction prefix as [|c prefix IH]; simpl; [done|].
  rewrite Forall_cons. intros [Hc Hs].
  destruct (Ascii.eqb_spec c ","); [done|]. by apply IH.
Qed.

(** X2.  A data URL [<marker>,<base64>] stores what the bare [<base64>]
    text stores, the marker and the text holding no comma; with more
    commas, only the text between the first two is decoded. *)
Theorem data_url_marker_is_dropped health_id marker payload fs :
  Forall (λ c, c ≠ ","%char) (list_ascii_of_string marker) →
  (Forall (λ c, c ≠ ","%char) (list_ascii_of_string payload) →
   _save_face_image health_id (JStr (marker +:+ "," +:+ payload)) fs
   = _save_face_image health_id (JStr payload) fs)
  ∧ (∀ tail,
       Forall (λ c, c ≠ ","%char) (list_ascii_of_string payload) →
       _save_face_image health_id (JStr (marker +:+ "," +:+ payload +:+ "," +:+ tail)) fs
       = _save_face_image health_id (JStr payload) fs).
Proof.
  intros Hmarker. split.
  - intros Hpayload. unfold _save_face_image.
    by rewrite (after_comma_app _ _ Hmarker), (after_comma_None _ Hpayload),
      (upto_comma_id _ Hpayload).
  - intros tail Hpayload. unfold _save_face_image.
    rewrite (after_comma_app _ _ Hmarker), (after_comma_None _ Hpayload).
    assert (upto_comma (payload +:+ "," +:+ tail) = payload) as ->; [|done].
    clear Hmarker. induction payload as [|c payload IH]; simpl; [done|].
    apply Forall_cons in Hpayload as [Hc Hpayload].
    destruct (Ascii.eqb_spec c ","); [done|]. by rewrite IH.
Qed.

End Faces.

(** ** Registration and the assets *)

Section Registration.
Context `{Externals}.

Lemma App_read_body_face today data v :
  App.read_body today (<["faceImage" := v]> data)
  = match App.read_body today (delete "faceImage" data) with
    | Ok (App.Accepted f) =>
        Ok (App.Accepted
              {| App.Fields.health_id := App.Fields.health_id f;
                 App.Fields.full_name := App.Fields.full_name f;
                 App.Fields.age := App.Fields.age f;
                 App.Fields.gender := App.Fields.gender f;
                 App.Fields.phone := App.Fields.phone f;
                 App.Fields.address := App.Fields.address f;
                 App.Fields.native_state := App.Fields.native_state f;
                 App.Fields.blood_group := App.Fields.blood_group f;
                 App.Fields.marital_status := App.Fields.marital_status f;
                 App.Fields.language := App.Fields.language f;
                 App.Fields.financial_status := App.Fields.financial_status f;
                 App.Fields.registration_date := App.Fields.registration_date f;
                 App.Fields.face_b64 := Some v |})
    | other => other
    end
  ∧ ∀ f, App.read_body today (delete "faceImage" data) = Ok (App.Accepted f) →
         App.Fields.face_b64 f = None.
Proof.
  unfold App.read_body.
  repeat match goal with
         | |- context [text_field (<["faceImage" := v]> data) ?k] =>
             rewrite (text_field_insert_ne data "faceImage" k v) by discriminate
         | |- context [int_field (<["faceImage" := v]> data) ?k] =>
             rewrite (int_field_insert_ne data "faceImage" k v) by discriminate
         | |- context [get_or (<["faceImage" := v]> data) ?k ?d] =>
             rewrite (get_or_insert_ne data "faceImage" k v d) by discriminate
         end.
  rewrite lookup_insert_eq, lookup_delete_eq.
  destruct (text_field (delete "faceImage" data) "healthId") as [health_id|]; simpl;
    [|by split].
  destruct (String.eqb health_id ""); [by split|].
  repeat match goal with
         | |- context [mbind _ ?m] => destruct m; simpl; [|by split]
         end.
  split; [done|]. by intros f [= <-].
Qed.

Lemma AppBack_read_body_face today data v :
  AppBack.read_body today (<["faceImage" := v]> data)
  = match AppBack.read_body today (delete "faceImage" data) with
    | Ok (AppBack.Accepted f) =>
        Ok (AppBack.Accepted
              {| AppBack.Fields.health_id := AppBack.Fields.health_id f;
                 AppBack.Fields.full_name := AppBack.Fields.full_name f;
                 AppBack.Fields.age := AppBack.Fields.age f;
                 AppBack.Fields.gender := AppBack.Fields.gender f;
                 AppBack.Fields.phone := AppBack.Fields.phone f;
                 AppBack.Fields.address := AppBack.Fields.address f;
                 AppBack.Fields.native_state := AppBack.Fields.native_state f;
                 AppBack.Fields.blood_group := AppBack.Fields.blood_group f;
                 AppBack.Fields.marital_status := AppBack.Fields.marital_status f;
                 AppBack.Fields.language := AppBack.Fields.language f;
                 AppBack.Fields.financial_status := AppBack.Fields.financial_status f;
                 AppBack.Fields.allergies := AppBack.Fields.allergies f;
                 AppBack.Fields.conditions := AppBack.Fields.conditions f;
                 AppBack.Fields.inherited_diseases := AppBack.Fields.inherited_diseases f;
                 AppBack.Fields.previous_treatments := AppBack.Fields.previous_treatments f;
                 AppBack.Fields.vaccination_count := AppBack.Fields.vaccination_count f;
                 AppBack.Fields.registration_date := AppBack.Fields.registration_date f;
                 AppBack.Fields.face_b64 := Some v |})
    | other => other
    end
  ∧ ∀ f, AppBack.read_body today (delete "faceImage" data) = Ok (AppBack.Accepted f) →
         AppBack.Fields.face_b64 f = None.
Proof.
  unfold AppBack.read_body.
  repeat match goal with
         | |- context [text_field (<["faceImage" := v]> data) ?k] =>
             rewrite (text_field_insert_ne data "faceImage" k v) by discriminate
         | |- context [int_field (<["faceImage" := v]> data) ?k] =>
             rewrite (int_field_insert_ne data "faceImage" k v) by discriminate
         | |- context [get_or (<["faceImage" := v]> data) ?k ?d] =>
             rewrite (get_or_insert_ne data "faceImage" k v d) by discriminate
         end.
  rewrite lookup_insert_eq, lookup_delete_eq.
  destruct (text_field (delete "faceImage" data) "healthId") as [health_id|]; simpl;
    [|by split].
  destruct (String.eqb health_id ""); [by split|].
  repeat match goal with
         | |- context [mbind _ ?m] => destruct m; simpl; [|by split]
         end.
  split; [done|]. by intros f [= <-].
Qed.

(** X3.  A face image that cannot be stored (a value that is no string,
    or a text whose base64 part does not decode) never fails a
    registration: the answer and the state are those of the same
    submission without a face image, in both variants. *)
Theorem bad_photo_is_no_photo today data v :
  ((∀ s, v ≠ JStr s)
   ∨ ∃ s, v = JStr s
       ∧ b64decode (match after_comma s with
                    | Some rest => upto_comma rest
                    | None => s
                    end) = None) →
  (∀ st : App.State,
     App.create_worker today (<["faceImage" := v]> data) st
     = App.create_worker today (delete "faceImage" data) st)
  ∧ (∀ st : AppBack.State,
       AppBack.create_worker today (<["faceImage" := v]> data) st
       = AppBack.create_worker today (delete "faceImage" data) st).
Proof.
  intros Hbad.
  assert (∀ health_id fs, App.save_face health_id (Some v) fs = ("", fs)) as Hsave.
  { intros health_id fs. unfold App.save_face. destruct (truthy v); [|done].
    destruct Hbad as [Hv|(s & -> & Hdec)].
    - destruct v; try done. by destruct (Hv s).
    - unfold _save_face_image. by rewrite Hdec. }
  split; intros st.
  - unfold App.create_worker.
    destruct (App_read_body_face today data v) as [-> Hnone].
    destruct (App.read_body today (delete "faceImage" data)) as [[r|f]|e]; try done.
    rewrite (Hnone f eq_refl). cbn -[App.save_face _generate_qr_image json_dumps].
    rewrite Hsave. done.
  - unfold AppBack.create_worker.
    destruct (AppBack_read_body_face today data v) as [-> Hnone].
    destruct (AppBack.read_body today (delete "faceImage" data)) as [[r|f]|e]; try done.
    rewrite (Hnone f eq_refl). cbn -[App.save_face _generate_qr_image json_dumps].
    rewrite Hsave. done.
Qed.

Lemma save_face_keeps health_id face_b64 fs :
  QR_IMAGE_DIR (snd (App.save_face health_id face_b64 fs)) = QR_IMAGE_DIR fs
  ∧ dom (FACE_IMAGE_DIR fs) ⊆ dom (FACE_IMAGE_DIR (snd (App.save_face health_id face_b64 fs))).
Proof.
  destruct (save_face_cases health_id face_b64) as [Hno|[b Hyes]];
    [by rewrite Hno|rewrite Hyes]. simpl. split; [done|]. apply dom_insert_subseteq.
Qed.

Lemma _generate_qr_image_keeps content health_id face_filename fs out fs' :
  _generate_qr_image content health_id face_filename fs = Ok (out, fs') →
  FACE_IMAGE_DIR fs' = FACE_IMAGE_DIR fs
  ∧ dom (QR_IMAGE_DIR fs) ⊆ dom (QR_IMAGE_DIR fs').
Proof.
  intros Hgen. apply _generate_qr_image_Ok in Hgen as (qr & _ & _ & Hfaces & Hqrs).
  split; [done|]. rewrite Hqrs. apply dom_insert_subseteq.
Qed.

(** X4.  No handler removes an asset: after a registration or a QR
    request, in both variants, every face file and every QR file that
    was stored is still stored. *)
Theorem assets_are_never_removed :
  (∀ today data (st : App.State),
     dom (FACE_IMAGE_DIR (App.storage st))
       ⊆ dom (FACE_IMAGE_DIR (App.storage (snd (App.create_worker today data st))))
     ∧ dom (QR_IMAGE_DIR (App.storage st))
         ⊆ dom (QR_IMAGE_DIR (App.storage (snd (App.create_worker today data st)))))
  ∧ (∀ today data (st : AppBack.State),
       dom (FACE_IMAGE_DIR (AppBack.storage st))
         ⊆ dom (FACE_IMAGE_DIR
                  (AppBack.storage (snd (AppBack.create_worker today data st))))
       ∧ dom (QR_IMAGE_DIR (AppBack.storage st))
           ⊆ dom (QR_IMAGE_DIR
                    (AppBack.storage (snd (AppBack.create_worker today data st)))))
  ∧ (∀ health_id (st : App.State),
       FACE_IMAGE_DIR (App.storage (snd (App.get_worker_qr health_id st)))
       = FACE_IMAGE_DIR (App.storage st)
       ∧ dom (QR_IMAGE_DIR (App.storage st))
           ⊆ dom (QR_IMAGE_DIR (App.storage (snd (App.get_worker_qr health_id st)))))
  ∧ (∀ health_id (st : AppBack.State),
       FACE_IMAGE_DIR (AppBack.storage (snd (AppBack.get_worker_qr health_id st)))
       = FACE_IMAGE_DIR (AppBack.storage st)
       ∧ dom (QR_IMAGE_DIR (AppBack.storage st))
           ⊆ dom (QR_IMAGE_DIR
                    (AppBack.storage (snd (AppBack.get_worker_qr health_id st))))).
Proof.
  split; [|split; [|split]].
  - intros today data st. unfold App.create_worker.
    destruct (App.read_body today data) as [[r|f]|e]; try done.
    pose proof (save_face_keeps (App.Fields.health_id f) (App.Fields.face_b64 f)
                  (App.storage st)) as [Hqr Hface].
    destruct (App.save_face _ _ _) as [face_filename fs1]. simpl in Hqr, Hface.
    destruct (_generate_qr_image _ _ _ fs1) as [[out fs2]|e] eqn:Hgen; simpl.
    + apply _generate_qr_image_keeps in Hgen as [-> Hsub]. by rewrite <- Hqr.
    + by rewrite Hqr.
  - intros today data st. unfold AppBack.create_worker.
    destruct (AppBack.read_body today data) as [[r|f]|e]; try done.
    pose proof (save_face_keeps (AppBack.Fields.health_id f) (AppBack.Fields.face_b64 f)
                  (AppBack.storage st)) as [Hqr Hface].
    destruct (App.save_face _ _ _) as [face_filename fs1]. simpl in Hqr, Hface.
    destruct (_generate_qr_image _ _ _ fs1) as [[out fs2]|e] eqn:Hgen; simpl.
    + apply _generate_qr_image_keeps in Hgen as [Hfaces Hsub].
      destruct (AppBack.persist _ _ _ _); simpl; rewrite Hfaces, <- Hqr; done.
    + by rewrite Hqr.
  - intros health_id st. unfold App.get_worker_qr.
    destruct (QR_IMAGE_DIR (App.storage st) !! _); [done|].
    destruct (App._read_worker health_id st); [|done].
    destruct (_generate_qr_image _ _ _ _) as [[out fs]|e] eqn:Hgen; [|done].
    by apply _generate_qr_image_keeps in Hgen.
  - intros health_id st. unfold AppBack.get_worker_qr.
    destruct (QR_IMAGE_DIR (AppBack.storage st) !! _); [done|].
    destruct (AppBack._read_worker health_id st); [|done].
    destruct (_generate_qr_image _ _ _ _) as [[out fs]|e] eqn:Hgen; [|done].
    by apply _generate_qr_image_keeps in Hgen.
Qed.

Lemma App_failure_keeps today data (st : App.State) :
  status (fst (App.create_worker today data st)) ≠ 201 →
  App.CSV_FILE (snd (App.create_worker today data st)) = App.CSV_FILE st
  ∧ QR_IMAGE_DIR (App.storage (snd (App.create_worker today data st)))
    = QR_IMAGE_DIR (App.storage st).
Proof.
  unfold App.create_worker.
  destruct (App.read_body today data) as [[r|f]|e]; try done.
  pose proof (save_face_keeps (App.Fields.health_id f) (App.Fields.face_b64 f)
                (App.storage st)) as [Hqr _].
  destruct (App.save_face _ _ _) as [face_filename fs1]. simpl in Hqr.
  destruct (_generate_qr_image _ _ _ fs1) as [[out fs2]|e]; simpl; done.
Qed.

Lemma AppBack_failure_keeps today data (st : AppBack.State) :
  status (fst (AppBack.create_worker today data st)) ≠ 201 →
  AppBack.workers (snd (AppBack.create_worker today data st)) = AppBack.workers st.
Proof.
  unfold AppBack.create_worker.
  destruct (AppBack.read_body today data) as [[r|f]|e]; try done.
  destruct (App.save_face _ _ _) as [face_filename fs1].
  destruct (_generate_qr_image _ _ _ fs1) as [[out fs2]|e]; simpl; [|done].
  destruct (AppBack.persist _ _ _ _); simpl; done.
Qed.


Lemma or_empty_twice a : App.or_empty a ≫= App.or_empty = App.or_empty a.
Proof. unfold App.or_empty. destruct (Z.eqb_spec a 0); simpl; [done|]. by destruct (Z.eqb_spec a 0). Qed.


(** *** The other records *)

Lemma find_upsert_other health_id new rows :
  health_id ≠ App.Row.health_id new →
  List.find (λ row, String.eqb (App.Row.health_id row) health_id) (App.upsert new rows)
  = List.find (λ row, String.eqb (App.Row.health_id row) health_id) rows.
Proof.
  intros Hne. unfold App.upsert. rewrite replace_rows_eq.
  assert (∀ tail,
            List.find (λ row, String.eqb (App.Row.health_id row) health_id)
              (((λ row, if String.eqb (App.Row.health_id row) (App.Row.health_id new)
                        then new else row) <$> rows) ++ tail)%list
            = List.find (λ row, String.eqb (App.Row.health_id row) health_id)
                (rows ++ tail)%list) as Hfind.
  { intros tail. induction rows as [|row rest IH]; [done|]. rewrite fmap_cons. simpl.
    destruct (String.eqb_spec (App.Row.health_id row) (App.Row.health_id new)) as [Heq|Hn].
    - destruct (String.eqb_spec (App.Row.health_id new) health_id); [congruence|].
      destruct (String.eqb_spec (App.Row.health_id row) health_id); [congruence|].
      apply IH.
    - destruct (String.eqb (App.Row.health_id row) health_id); [done|]. apply IH. }
  case_bool_decide as Hin.
  - specialize (Hfind []). by rewrite !app_nil_r in Hfind.
  - rewrite Hfind. clear Hfind Hin. induction rows as [|row rest IH]; simpl.
    + destruct (String.eqb_spec (App.Row.health_id new) health_id); [congruence|done].
    + destruct (String.eqb (App.Row.health_id row) health_id); [done|]. apply IH.
Qed.

Lemma first_update_first_other health_id health_id' new (ws : list AppBack.Worker.t) :
  health_id' ≠ health_id → AppBack.Worker.health_id new = health_id →
  AppBack.first health_id' (AppBack.update_first health_id new ws)
  = AppBack.first health_id' ws.
Proof.
  intros Hne Hnew. unfold AppBack.first.
  induction ws as [|w rest IH]; [done|]. simpl.
  destruct (String.eqb_spec (AppBack.Worker.health_id w) health_id) as [Heq|Hn]; simpl.
  - rewrite Hnew.
    destruct (String.eqb_spec health_id health_id'); [congruence|].
    destruct (String.eqb_spec (AppBack.Worker.health_id w) health_id'); [congruence|done].
  - destruct (String.eqb (AppBack.Worker.health_id w) health_id'); [done|]. apply IH.
Qed.

Lemma first_app_other health_id' new (ws : list AppBack.Worker.t) :
  health_id' ≠ AppBack.Worker.health_id new →
  AppBack.first health_id' (ws ++ [new])%list = AppBack.first health_id' ws.
Proof.
  intros Hne. unfold AppBack.first.
  induction ws as [|w rest IH]; simpl.
  - destruct (String.eqb_spec (AppBack.Worker.health_id new) health_id'); [congruence|done].
  - destruct (String.eqb (AppBack.Worker.health_id w) health_id'); [done|]. apply IH.
Qed.

Lemma first_persist_other health_id' f face_filename qr_filename ws ws' :
  health_id' ≠ AppBack.Fields.health_id f →
  AppBack.persist f face_filename qr_filename ws = Ok ws' →
  AppBack.first health_id' ws' = AppBack.first health_id' ws.
Proof.
  intros Hne. unfold AppBack.persist.
  destruct (AppBack.date_column _) as [d|]; simpl; [|discriminate].
  destruct (AppBack.first _ ws) as [w|] eqn:Hfirst.
  - apply first_Some in Hfirst as [Hw _]. intros [= <-].
    by apply first_update_first_other.
  - intros [= <-]. by apply first_app_other.
Qed.


(** *** The assets after a registration *)

Lemma face_overlay_ext qr_img face_filename fs fs' :
  FACE_IMAGE_DIR fs' = FACE_IMAGE_DIR fs →
  face_overlay qr_img face_filename fs' = face_overlay qr_img face_filename fs.
Proof. intros Hfaces. unfold face_overlay. by rewrite Hfaces. Qed.

(** X8.  After an accepted registration the QR endpoint answers from
    the cache, without changing the state, with the image that encodes
    the submission's payload; and when the answer carries a face URL,
    the face endpoint sends a stored file.  Both variants. *)
Theorem assets_served_after_registration :
  (∀ today data (st st' : App.State) r,
     App.create_worker today data st = (r, st') → status r = 201 →
     ∃ f img,
       App.read_body today data = Ok (App.Accepted f)
       ∧ App.get_worker_qr (App.Fields.health_id f) st' = (SendFile img, st')
       ∧ pic_data img = json_dumps (App.qr_payload f)
       ∧ (∀ qrUrl faceUrl, r = Created (App.Fields.health_id f) qrUrl (Some faceUrl) →
            ∃ image_bytes,
              get_worker_face (App.Fields.health_id f) (App.storage st')
              = SendFace image_bytes))
  ∧ (∀ today data (st st' : AppBack.State) r,
       AppBack.create_worker today data st = (r, st') → status r = 201 →
       ∃ f img,
         AppBack.read_body today data = Ok (AppBack.Accepted f)
         ∧ AppBack.get_worker_qr (AppBack.Fields.health_id f) st' = (SendFile img, st')
         ∧ pic_data img = json_dumps (AppBack.qr_payload f)
         ∧ (∀ qrUrl faceUrl,
              r = Created (AppBack.Fields.health_id f) qrUrl (Some faceUrl) →
              ∃ image_bytes,
                get_worker_face (AppBack.Fields.health_id f) (AppBack.storage st')
                = SendFace image_bytes)).
Proof.
  split.
  - intros today data st st' r Hc Hr. pose proof Hc as Hc'.
    apply App_create_worker_201 in Hc as (f & face & fs1 & fs2 & Hread & Hface & Hgen & ->);
      [|done].
    pose proof (_generate_qr_image_Ok _ _ _ _ _ _ Hgen) as (qr & _ & _ & Hfaces & Hqrs).
    exists f. eexists. split; [done|]. split.
    { apply App_get_worker_qr_hit. simpl. by rewrite Hqrs, lookup_insert_eq. }
    split; [done|]. intros qrUrl faceUrl ->.
    unfold App.create_worker in Hc'. rewrite Hread, Hface, Hgen in Hc'.
    destruct (save_face_cases (App.Fields.health_id f) (App.Fields.face_b64 f))
      as [Hno|[b Hyes]].
    + rewrite Hno in Hface. injection Hface as <- <-. simpl in Hc'. discriminate Hc'.
    + rewrite Hyes in Hface. injection Hface as <- <-.
      exists b. unfold get_worker_face. simpl. rewrite Hfaces. simpl.
      by rewrite lookup_insert_eq.
  - intros today data st st' r Hc Hr. pose proof Hc as Hc'.
    apply AppBack_create_worker_201 in Hc
      as (f & face & fs1 & fs2 & ws & Hread & Hface & Hgen & Hp & ->); [|done].
    pose proof (_generate_qr_image_Ok _ _ _ _ _ _ Hgen) as (qr & _ & _ & Hfaces & Hqrs).
    exists f. eexists. split; [done|]. split.
    { apply AppBack_get_worker_qr_hit. simpl. by rewrite Hqrs, lookup_insert_eq. }
    split; [done|]. intros qrUrl faceUrl ->.
    unfold AppBack.create_worker in Hc'. rewrite Hread, Hface, Hgen, Hp in Hc'.
    destruct (save_face_cases (AppBack.Fields.health_id f) (AppBack.Fields.face_b64 f))
      as [Hno|[b Hyes]].
    + rewrite Hno in Hface. injection Hface as <- <-. simpl in Hc'. discriminate Hc'.
    + rewrite Hyes in Hface. injection Hface as <- <-.
      exists b. unfold get_worker_face. simpl. rewrite Hfaces. simpl.
      by rewrite lookup_insert_eq.
Qed.


Lemma upsert_twice new rows :
  App.upsert new (App.upsert new rows) = App.upsert new rows.
Proof.
  assert (∀ l : list App.Row.t,
            (λ row, if String.eqb (App.Row.health_id row) (App.Row.health_id new)
                    then new else row) <$>
            ((λ row, if String.eqb (App.Row.health_id row) (App.Row.health_id new)
                     then new else row) <$> l)
            = (λ row, if String.eqb (App.Row.health_id row) (App.Row.health_id new)
                      then new else row) <$> l) as Hswap.
  { intros l. rewrite <- list_fmap_compose. apply list_fmap_ext. intros ? row ?. simpl.
    destruct (String.eqb_spec (App.Row.health_id row) (App.Row.health_id new)) as [?|Hne].
    - by rewrite String.eqb_refl.
    - by destruct (String.eqb_spec (App.Row.health_id row) (App.Row.health_id new)). }
  pose proof (upsert_ids new rows) as Hids.
  unfold App.upsert at 1. rewrite replace_rows_eq.
  assert (App.Row.health_id new ∈ App.Row.health_id <$> App.upsert new rows) as Hin.
  { rewrite Hids. case_bool_decide; [done|]. apply elem_of_app. right.
    by apply list_elem_of_singleton. }
  rewrite bool_decide_eq_true_2 by done.
  unfold App.upsert. rewrite replace_rows_eq. case_bool_decide as Hold.
  - apply Hswap.
  - rewrite fmap_app, Hswap. simpl. by rewrite String.eqb_refl.
Qed.

Lemma update_first_same health_id (ws : list AppBack.Worker.t) w :
  AppBack.first health_id ws = Some w → AppBack.update_first health_id w ws = ws.
Proof.
  unfold AppBack.first. induction ws as [|w' rest IH]; [done|]. simpl.
  destruct (String.eqb (AppBack.Worker.health_id w') health_id).
  - by intros [= ->].
  - intros Hfind. by rewrite IH.
Qed.


End Registration.

(** ** The overlay *)

Lemma round_aspect_close num den closer :
  0 < den → 0 < num →
  Z.abs (round_aspect num den closer * den - num) < den.
Proof.
  intros Hden Hnum. unfold round_aspect.
  pose proof (Z.div_mod num den ltac:(lia)) as Hdm.
  pose proof (Z.mod_pos_bound num den Hden) as Hm.
  pose proof (Z.div_mod (- num) den ltac:(lia)) as Hdm'.
  pose proof (Z.mod_pos_bound (- num) den Hden) as Hm'.
  assert (0 <= num / den) by (apply Z.div_pos; lia).
  destruct (closer _ _); nia.
Qed.

Lemma round_aspect_ge_1 num den closer : 1 <= round_aspect num den closer.
Proof. unfold round_aspect. apply Z.le_max_r. Qed.

Lemma thumbnail_sides w h t :
  0 < w → 0 < h → 1 <= t →
  1 <= fst (thumbnail (w, h) (t, t)) ∧ 1 <= snd (thumbnail (w, h) (t, t))
  ∧ Z.abs (fst (thumbnail (w, h) (t, t)) * h - snd (thumbnail (w, h) (t, t)) * w)
    < Z.max w h.
Proof.
  intros Hw Hh Ht. unfold thumbnail.
  destruct ((w <=? t) && (h <=? t)); [simpl; lia|].
  destruct (w * t <=? t * h) eqn:Hside.
  - apply Z.leb_le in Hside.
    match goal with
    | |- context [round_aspect ?n ?d ?c] =>
        pose proof (round_aspect_close n d c Hh ltac:(apply Z.mul_pos_pos; lia));
        pose proof (round_aspect_ge_1 n d c)
    end.
    simpl. split; [done|]. split; [lia|]. nia.
  - apply Z.leb_gt in Hside.
    match goal with
    | |- context [round_aspect ?n ?d ?c] =>
        pose proof (round_aspect_close n d c Hw ltac:(apply Z.mul_pos_pos; lia));
        pose proof (round_aspect_ge_1 n d c)
    end.
    simpl. split; [lia|]. split; [done|]. nia.
Qed.

Section Overlay.
Context `{Externals}.

(** X11.  Where the face goes: on a worker QR with a stored face image,
    the thumbnail sits on a white backing 8 units wider and higher than
    itself, the backing ends 8 units before the right and the bottom
    edge of the QR image, and it lies wholly in the bottom-right quarter
    of the image. *)
Theorem overlay_in_bottom_right_quarter content health_id name fs out fs' face_bytes w h :
  name ≠ "" →
  FACE_IMAGE_DIR fs !! name = Some face_bytes →
  image_open face_bytes = Some (w, h) →
  0 < w → 0 < h →
  _generate_qr_image content health_id (Some name) fs = Ok (out, fs') →
  ∃ img ov,
    QR_IMAGE_DIR fs' !! out = Some img ∧ pic_overlay img = Some ov
    ∧ ov_face ov = face_bytes
    ∧ ov_bordered ov = (fst (ov_thumb ov) + 8, snd (ov_thumb ov) + 8)
    ∧ fst (ov_pos ov) + fst (ov_bordered ov) = fst (size img) - 8
    ∧ snd (ov_pos ov) + snd (ov_bordered ov) = snd (size img) - 8
    ∧ fst (size img) <= 2 * fst (ov_pos ov)
    ∧ snd (size img) <= 2 * snd (ov_pos ov)
    ∧ 330 <= fst (size img).
Proof.
  intros Hname Hfile Hopen Hw Hh Hgen.
  apply _generate_qr_image_Ok in Hgen as (qr & Hfit & -> & _ & Hqrs).
  apply make_fit_Ok in Hfit as (_ & Hbox & Hborder & Hv & _).
  rewrite (face_overlay_Some _ _ _ _ _ Hname Hfile Hopen) in Hqrs.
  eexists _, _. split; [by rewrite Hqrs, lookup_insert_eq|].
  split; [done|]. cbn [ov_face ov_thumb ov_bordered ov_pos pic_qr size fst snd].
  assert (330 <= pixel_size qr) as Hsize.
  { unfold pixel_size, modules_count. rewrite Hbox, Hborder. simpl in Hv |- *. lia. }
  pose proof (thumbnail_longer_side w h (Z.max 64 (pixel_size qr / 6)) Hw Hh ltac:(lia))
    as Hside.
  pose proof (Z.mul_div_le (pixel_size qr) 6 ltac:(lia)) as Hdiv.
  repeat split; try done; lia.
Qed.

(** X12.  How the face is scaled: the thumbnail has at least one unit a
    side and keeps the proportions of the face image up to the rounding
    of one side, the cross products [tw * h] and [th * w] differing by
    less than the longer side of the image. *)
Theorem thumbnail_keeps_proportions content health_id name fs out fs' face_bytes w h :
  name ≠ "" →
  FACE_IMAGE_DIR fs !! name = Some face_bytes →
  image_open face_bytes = Some (w, h) →
  0 < w → 0 < h →
  _generate_qr_image content health_id (Some name) fs = Ok (out, fs') →
  ∃ img ov,
    QR_IMAGE_DIR fs' !! out = Some img ∧ pic_overlay img = Some ov
    ∧ 1 <= fst (ov_thumb ov) ∧ 1 <= snd (ov_thumb ov)
    ∧ Z.abs (fst (ov_thumb ov) * h - snd (ov_thumb ov) * w) < Z.max w h
    ∧ (w <= Z.max 64 (fst (size img) / 6) → h <= Z.max 64 (fst (size img) / 6) →
       ov_thumb ov = (w, h)).
Proof.
  intros Hname Hfile Hopen Hw Hh Hgen.
  apply _generate_qr_image_Ok in Hgen as (qr & _ & -> & _ & Hqrs).
  rewrite (face_overlay_Some _ _ _ _ _ Hname Hfile Hopen) in Hqrs.
  eexists _, _. split; [by rewrite Hqrs, lookup_insert_eq|].
  split; [done|]. cbn [ov_thumb pic_qr size fst snd].
  pose proof (thumbnail_sides w h (Z.max 64 (pixel_size qr / 6)) Hw Hh ltac:(lia))
    as (? & ? & ?).
  repeat split; try done. intros ? ?. by apply thumbnail_fits.
Qed.

End Overlay.

(** ** The base of the returned URLs *)

Lemma prefix_split p s :
  String.prefix p s = true → s = p +:+ drop_chars (String.length p) s.
Proof.
  revert s. induction p as [|a p IH]; intros s; simpl; [done|].
  destruct s as [|b s]; [discriminate|]. simpl.
  destruct (Ascii.ascii_dec a b) as [->|]; [|discriminate].
  intros Hp. change (String b s = String b (p +:+ drop_chars (String.length p) s)).
  f_equal. by apply IH.
Qed.

Lemma rstrip_char_cons c0 c s :
  c ≠ c0 →
  rstrip_char c0 (String c s) = String c (rstrip_char c0 s).
Proof.
  intros Hc. simpl. destruct (rstrip_char c0 s); [|done].
  by destruct (Ascii.eqb_spec c c0).
Qed.

Lemma rstrip_char_step c0 c s :
  rstrip_char c0 (String c s)
  = match rstrip_char c0 s with
    | EmptyString => if Ascii.eqb c c0 then EmptyString else String c EmptyString
    | t => String c t
    end.
Proof. done. Qed.

Lemma rstrip_char_twice c0 s : rstrip_char c0 (rstrip_char c0 s) = rstrip_char c0 s.
Proof.
  induction s as [|c s IH]; [done|]. rewrite (rstrip_char_step c0 c s).
  destruct (rstrip_char c0 s) as [|c' t] eqn:Hs.
  - destruct (Ascii.eqb c c0) eqn:Hc; [done|]. rewrite rstrip_char_step. simpl.
    by rewrite Hc.
  - rewrite rstrip_char_step. by rewrite IH.
Qed.

Lemma app_empty_r p s : p +:+ s = EmptyString → s = EmptyString.
Proof. by destruct p. Qed.

Lemma rstrip_char_fixed_suffix c0 p s :
  s ≠ EmptyString →
  rstrip_char c0 (p +:+ s) = p +:+ s → rstrip_char c0 s = s.
Proof.
  intros Hs. induction p as [|a p IH]; [done|].
  change (String a p +:+ s) with (String a (p +:+ s)).
  rewrite rstrip_char_step. intros Hfix.
  destruct (rstrip_char c0 (p +:+ s)) as [|b t] eqn:Hp.
  - destruct (Ascii.eqb a c0); [discriminate|].
    injection Hfix as Hfix. symmetry in Hfix. by apply app_empty_r in Hfix.
  - injection Hfix as Hfix. by apply IH.
Qed.

Lemma rstrip_char_fixed_prefix c0 q s :
  s ≠ EmptyString →
  rstrip_char c0 s = s → rstrip_char c0 (q +:+ s) = q +:+ s.
Proof.
  intros Hs Hfix. induction q as [|a q IH]; [done|].
  change (String a q +:+ s) with (String a (q +:+ s)).
  rewrite rstrip_char_step, IH.
  destruct (q +:+ s) as [|b t] eqn:Hq; [|done].
  by apply app_empty_r in Hq.
Qed.

Lemma rstrip_char_swap_prefix c0 p q rest :
  rstrip_char c0 (q +:+ EmptyString) = q +:+ EmptyString →
  rstrip_char c0 (p +:+ rest) = p +:+ rest →
  rstrip_char c0 (q +:+ rest) = q +:+ rest.
Proof.
  intros Hq Hp. destruct (decide (rest = EmptyString)) as [->|Hrest]; [done|].
  apply rstrip_char_fixed_prefix; [done|].
  by apply (rstrip_char_fixed_suffix c0 p).
Qed.

Lemma prefix_app p rest : String.prefix p (p +:+ rest) = true.
Proof.
  induction p as [|a p IH]; simpl; [by destruct rest|].
  by destruct (Ascii.ascii_dec a a).
Qed.

Lemma drop_chars_app p rest : drop_chars (String.length p) (p +:+ rest) = rest.
Proof. induction p as [|a p IH]; simpl; [by destruct rest|done]. Qed.

Lemma replace_first_unfold old new s :
  replace_first old new s
  = if String.prefix old s
    then new +:+ drop_chars (String.length old) s
    else match s with
         | String c s' => String c (replace_first old new s')
         | EmptyString => EmptyString
         end.
Proof. by destruct s. Qed.

Lemma replace_first_here old new rest :
  replace_first old new (old +:+ rest) = new +:+ rest.
Proof. by rewrite replace_first_unfold, prefix_app, drop_chars_app. Qed.

Lemma replace_first_skip old new c s :
  String.prefix old (String c s) = false →
  replace_first old new (String c s) = String c (replace_first old new s).
Proof. intros Hc. by rewrite replace_first_unfold, Hc. Qed.

Lemma replace_first_http rest :
  replace_first "0.0.0.0" "localhost" ("http://0.0.0.0" +:+ rest)
  = "http://localhost" +:+ rest.
Proof.
  change ("http://0.0.0.0" +:+ rest) with ("http://" +:+ ("0.0.0.0" +:+ rest)).
  generalize (replace_first_here "0.0.0.0" "localhost" rest).
  generalize ("0.0.0.0" +:+ rest). intros s Hs.
  cbv [String.append]. rewrite !replace_first_skip by done. by rewrite Hs.
Qed.

Lemma replace_first_https rest :
  replace_first "0.0.0.0" "localhost" ("https://0.0.0.0" +:+ rest)
  = "https://localhost" +:+ rest.
Proof.
  change ("https://0.0.0.0" +:+ rest) with ("https://" +:+ ("0.0.0.0" +:+ rest)).
  generalize (replace_first_here "0.0.0.0" "localhost" rest).
  generalize ("0.0.0.0" +:+ rest). intros s Hs.
  cbv [String.append]. rewrite !replace_first_skip by done. by rewrite Hs.
Qed.

(** X13.  The base of the URLs handed back never lies on the unroutable
    address: it does not start with [http://0.0.0.0] or
    [https://0.0.0.0], it has no trailing slash, it is the host URL
    without its trailing slashes when that does not start so, and for
    [http://0.0.0.0<rest>] it is [http://localhost<rest>]. *)
Theorem base_url_is_routable host_url :
  String.prefix "http://0.0.0.0" (base_url host_url) = false
  ∧ String.prefix "https://0.0.0.0" (base_url host_url) = false
  ∧ rstrip_char "/" (base_url host_url) = base_url host_url
  ∧ (String.prefix "http://0.0.0.0" (rstrip_char "/" host_url) = false →
     String.prefix "https://0.0.0.0" (rstrip_char "/" host_url) = false →
     base_url host_url = rstrip_char "/" host_url)
  ∧ (∀ rest, rstrip_char "/" host_url = "http://0.0.0.0" +:+ rest →
       base_url host_url = "http://localhost" +:+ rest)
  ∧ (∀ rest, rstrip_char "/" host_url = "https://0.0.0.0" +:+ rest →
       base_url host_url = "https://localhost" +:+ rest).
Proof.
  unfold base_url.
  pose proof (rstrip_char_twice "/" host_url) as Hstrip.
  destruct (String.prefix "http://0.0.0.0" (rstrip_char "/" host_url)) eqn:Hhttp.
  - apply prefix_split in Hhttp. simpl String.length in Hhttp.
    set (rest := drop_chars 14 (rstrip_char "/" host_url)) in *.
    rewrite Hhttp in Hstrip |- *. cbn [orb]. rewrite replace_first_http.
    repeat split; try done.
    + by apply (rstrip_char_swap_prefix "/" "http://0.0.0.0" "http://localhost").
    + intros rest' Hrest. cbv [String.append] in Hrest. by injection Hrest as <-.
  - destruct (String.prefix "https://0.0.0.0" (rstrip_char "/" host_url)) eqn:Hhttps.
    + apply prefix_split in Hhttps. simpl String.length in Hhttps.
      set (rest := drop_chars 15 (rstrip_char "/" host_url)) in *.
      rewrite Hhttps in Hstrip |- *. cbn [orb]. rewrite replace_first_https.
      repeat split; try done.
      * by apply (rstrip_char_swap_prefix "/" "https://0.0.0.0" "https://localhost").
      * intros rest' Hrest. cbv [String.append] in Hrest. by injection Hrest as <-.
    + simpl. repeat split; try done.
      * intros rest Hrest. by rewrite Hrest, prefix_app in Hhttp.
      * intros rest Hrest. by rewrite Hrest, prefix_app in Hhttps.
Qed.

(** ** Surrounding blanks in the text members *)

Lemma lstrip_twice s : lstrip (lstrip s) = lstrip s.
Proof.
  induction s as [|c s IH]; [done|]. simpl.
  destruct (py_isspace c) eqn:Hc; [done|]. simpl. by rewrite Hc.
Qed.

Lemma rstrip_step c s :
  rstrip (String c s)
  = match rstrip s with
    | EmptyString => if py_isspace c then EmptyString else String c EmptyString
    | t => String c t
    end.
Proof. done. Qed.

Lemma rstrip_twice s : rstrip (rstrip s) = rstrip s.
Proof.
  induction s as [|c s IH]; [done|]. rewrite (rstrip_step c s).
  destruct (rstrip s) as [|c' t] eqn:Hs.
  - destruct (py_isspace c) eqn:Hc; [done|]. rewrite rstrip_step. simpl.
    by rewrite Hc.
  - rewrite rstrip_step. by rewrite IH.
Qed.

(** Trimming the right end keeps a left end that is already trimmed. *)
Lemma lstrip_rstrip_lstrip s : lstrip (rstrip (lstrip s)) = rstrip (lstrip s).
Proof.
  destruct (lstrip s) as [|c t] eqn:Hl; [done|].
  apply lstrip_head in Hl. rewrite rstrip_step.
  destruct (rstrip t); rewrite ?Hl; simpl; by rewrite Hl.
Qed.

Lemma strip_twice s : strip (strip s) = strip s.
Proof. unfold strip. by rewrite lstrip_rstrip_lstrip, rstrip_twice. Qed.

Lemma lstrip_app_blank l s :
  Forall (λ c, py_isspace c = true) (list_ascii_of_string l) →
  lstrip (l +:+ s) = lstrip s.
Proof.
  induction l as [|c l IH]; [done|]. simpl list_ascii_of_string.
  rewrite Forall_cons. intros [Hc Hl].
  change (String c l +:+ s) with (String c (l +:+ s)). simpl. rewrite Hc. by apply IH.
Qed.

Lemma rstrip_app_blank s r :
  Forall (λ c, py_isspace c = true) (list_ascii_of_string r) →
  rstrip (s +:+ r) = rstrip s.
Proof.
  intros Hr. induction s as [|c s IH].
  - change (EmptyString +:+ r) with r. by apply rstrip_empty.
  - change (String c s +:+ r) with (String c (s +:+ r)).
    by rewrite !rstrip_step, IH.
Qed.

Lemma strip_app_blank s r :
  Forall (λ c, py_isspace c = true) (list_ascii_of_string r) →
  strip (s +:+ r) = strip s.
Proof.
  intros Hr. induction s as [|c s IH].
  - change (EmptyString +:+ r) with r. by apply strip_empty.
  - change (String c s +:+ r) with (String c (s +:+ r)).
    unfold strip in *. simpl lstrip. destruct (py_isspace c); [done|].
    by apply (rstrip_app_blank (String c s)).
Qed.

Lemma strip_padded l s r :
  Forall (λ c, py_isspace c = true) (list_ascii_of_string l) →
  Forall (λ c, py_isspace c = true) (list_ascii_of_string r) →
  strip (l +:+ s +:+ r) = strip s.
Proof.
  intros Hl Hr. unfold strip. rewrite lstrip_app_blank by done.
  by apply strip_app_blank.
Qed.

Lemma text_field_insert_eq data k s :
  text_field (<[k := JStr s]> data) k = Ok (strip s).
Proof.
  unfold text_field, get_or. rewrite lookup_insert_eq. simpl.
  by destruct (String.eqb_spec s "") as [->|].
Qed.

Lemma text_field_trimmed data k s : text_field data k = Ok s → strip s = s.
Proof.
  unfold text_field. destruct (get_or data k (JStr "")); try discriminate.
  simpl. intros [= <-]. apply strip_twice.
Qed.


(** The members [create_worker] reads with [.strip()]. *)
Lemma App_read_body_ext today data1 data2 :
  (∀ k, k ∈ ["healthId"; "fullName"; "gender"; "phone"; "address"; "nativeState";
             "bloodGroup"; "maritalStatus"; "language"; "financialStatus"] →
        text_field data1 k = text_field data2 k) →
  int_field data1 "age" = int_field data2 "age" →
  get_or data1 "registrationDate" (JStr today) = get_or data2 "registrationDate" (JStr today) →
  data1 !! "faceImage" = data2 !! "faceImage" →
  App.read_body today data1 = App.read_body today data2.
Proof.
  intros Htext Hage Hdate Hface. unfold App.read_body.
  rewrite Hage, Hdate, Hface.
  repeat match goal with
         | |- context [text_field data1 ?k] =>
             rewrite (Htext k) by (repeat first [apply list_elem_of_here | apply list_elem_of_further])
         end.
  done.
Qed.

Lemma AppBack_read_body_ext today data1 data2 :
  (∀ k, k ∈ ["healthId"; "fullName"; "gender"; "phone"; "address"; "nativeState";
             "bloodGroup"; "maritalStatus"; "language"; "financialStatus";
             "allergies"; "conditions"; "inheritedDiseases"; "previousTreatments"] →
        text_field data1 k = text_field data2 k) →
  int_field data1 "age" = int_field data2 "age" →
  int_field data1 "vaccinationCount" = int_field data2 "vaccinationCount" →
  get_or data1 "registrationDate" (JStr today) = get_or data2 "registrationDate" (JStr today) →
  data1 !! "faceImage" = data2 !! "faceImage" →
  AppBack.read_body today data1 = AppBack.read_body today data2.
Proof.
  intros Htext Hage Hvac Hdate Hface. unfold AppBack.read_body.
  rewrite Hage, Hvac, Hdate, Hface.
  repeat match goal with
         | |- context [text_field data1 ?k] =>
             rewrite (Htext k) by (repeat first [apply list_elem_of_here | apply list_elem_of_further])
         end.
  done.
Qed.

Lemma text_field_insert_insert data k k' v1 v2 :
  k ≠ k' → text_field (<[k := v1]> data) k' = text_field (<[k := v2]> data) k'.
Proof. intros Hne. by rewrite !(text_field_insert_ne data k k') by done. Qed.

Lemma int_field_insert_insert data k k' v1 v2 :
  k ≠ k' → int_field (<[k := v1]> data) k' = int_field (<[k := v2]> data) k'.
Proof. intros Hne. by rewrite !(int_field_insert_ne data k k') by done. Qed.

Lemma get_or_insert_insert data k k' v1 v2 d :
  k ≠ k' → get_or (<[k := v1]> data) k' d = get_or (<[k := v2]> data) k' d.
Proof. intros Hne. by rewrite !(get_or_insert_ne data k k') by done. Qed.

Lemma text_field_padded data k k' l s r :
  Forall (λ c, py_isspace c = true) (list_ascii_of_string l) →
  Forall (λ c, py_isspace c = true) (list_ascii_of_string r) →
  text_field (<[k := JStr (l +:+ s +:+ r)]> data) k'
  = text_field (<[k := JStr s]> data) k'.
Proof.
  intros Hl Hr. destruct (decide (k = k')) as [<-|Hne].
  - by rewrite !text_field_insert_eq, strip_padded.
  - by apply text_field_insert_insert.
Qed.

Section Blanks.
Context `{Externals}.


End Blanks.

(** ** Appointments, feedback and the demo data *)

Lemma first_worker_Some health_id ws i w :
  Clinic.first_worker health_id ws = Some (i, w) →
  ws !! i = Some w ∧ AppBack.Worker.health_id w = health_id.
Proof. unfold Clinic.first_worker. by intros (? & ? & _)%list_find_Some. Qed.

Lemma first_worker_None health_id ws :
  Clinic.first_worker health_id ws = None
  ↔ health_id ∉ (AppBack.Worker.health_id <$> ws).
Proof.
  unfold Clinic.first_worker. rewrite list_find_None, Forall_forall, list_elem_of_fmap.
  split.
  - intros Hall (w & -> & Hin). by apply (Hall w).
  - intros Hno w Hin Heq. apply Hno. by exists w.
Qed.

(** [.first()] finds the same row in both handlers. *)
Lemma first_worker_first health_id ws :
  AppBack.first health_id ws = snd <$> Clinic.first_worker health_id ws.
Proof.
  unfold AppBack.first, Clinic.first_worker.
  induction ws as [|w ws IH]; [done|]. simpl.
  destruct (String.eqb_spec (AppBack.Worker.health_id w) health_id) as [Heq|Hne];
    destruct (decide (AppBack.Worker.health_id w = health_id)); try done.
  rewrite IH. by destruct (list_find _ ws) as [[? ?]|].
Qed.

Lemma update_first_length health_id new (ws : list AppBack.Worker.t) :
  length (AppBack.update_first health_id new ws) = length ws.
Proof.
  induction ws as [|w rest IH]; [done|]. simpl.
  destruct (String.eqb _ _); simpl; [done|by rewrite IH].
Qed.

Section Database.
Context `{Externals}.

(** The table after a commit: no row is lost, and the only identifier
    that may be new is the one of the submission. *)
Lemma persist_table f face_filename qr_filename ws ws' :
  AppBack.persist f face_filename qr_filename ws = Ok ws' →
  (length ws <= length ws')%nat
  ∧ ∀ h, h ∈ AppBack.Worker.health_id <$> ws' →
         h ∈ AppBack.Worker.health_id <$> ws ∨ h = AppBack.Fields.health_id f.
Proof.
  unfold AppBack.persist.
  destruct (AppBack.date_column _) as [d|]; simpl; [|discriminate].
  destruct (AppBack.first _ ws) as [w|] eqn:Hfirst.
  - apply first_Some in Hfirst as [Hw _]. rewrite Hw. intros [= <-].
    rewrite update_first_length. split; [done|]. intros h.
    pose proof (update_first_ids
                  (AppBack.assign (AppBack.Fields.health_id f) f d face_filename qr_filename)
                  ws) as Hids.
    simpl in Hids. rewrite Hids. by left.
  - intros [= <-]. rewrite length_app. split; [lia|]. intros h.
    rewrite fmap_app, elem_of_app. simpl. rewrite list_elem_of_singleton.
    intros [?|?]; [by left|by right].
Qed.

Lemma AppBack_create_worker_table today data (st : AppBack.State) :
  (length (AppBack.workers st)
   <= length (AppBack.workers (snd (AppBack.create_worker today data st))))%nat
  ∧ (NoDup (AppBack.Worker.health_id <$> AppBack.workers st) →
     NoDup (AppBack.Worker.health_id
              <$> AppBack.workers (snd (AppBack.create_worker today data st))))
  ∧ ∀ h, h ∈ AppBack.Worker.health_id
               <$> AppBack.workers (snd (AppBack.create_worker today data st)) →
         h ∈ AppBack.Worker.health_id <$> AppBack.workers st ∨ h ≠ "".
Proof.
  destruct (decide (status (fst (AppBack.create_worker today data st)) = 201)) as [Hr|Hr].
  - destruct (AppBack.create_worker today data st) as [r st'] eqn:Hc. simpl in Hr |- *.
    apply AppBack_create_worker_201 in Hc
      as (f & face & fs1 & fs2 & ws & Hread & _ & _ & Hp & ->); [|done].
    simpl. apply AppBack_read_body_Accepted in Hread as (Hne & _).
    pose proof (persist_table _ _ _ _ _ Hp) as [Hlen Hids].
    split_and!; [done| |].
    + intros Hnodup. by apply (persist_Ok _ _ _ _ _ Hnodup) in Hp as (_ & _ & _ & _ & ?).
    + intros h [?| ->]%Hids; [by left|by right].
  - rewrite (AppBack_failure_keeps today data st Hr). split_and!; [done|done|].
    intros h ?. by left.
Qed.

(** What holds of every state of the database. *)
Lemma reachable_database st :
  Clinic.reachable st →
  Clinic.unique_columns st
  ∧ Clinic.foreign_keys st
  ∧ ("" ∉ AppBack.Worker.health_id <$> AppBack.workers (Clinic.registry st))
  ∧ (0 < length (AppBack.workers (Clinic.registry st)))%nat
  ∧ Forall (λ a, Clinic.Appointment.status a = "pending") (Clinic.appointments st).
Proof.
  induction 1 as [now st Hseed|now st st' _ IH Hseed|today data st _ IH
                  |now data st _ IH|now data st _ IH].
  - injection Hseed as <-. split_and!.
    + split; simpl; by apply (bool_decide_unpack _).
    + split; simpl;
        repeat (apply Forall_cons; split;
                [split; [vm_compute; lia|intros d [= <-]; vm_compute; lia]|]);
        apply Forall_nil_2.
    + simpl. by apply (bool_decide_unpack _).
    + simpl. lia.
    + simpl. by repeat (apply Forall_cons; split; [done|]).
  - pose proof IH as (_ & _ & _ & Hlen & _). unfold Clinic.seed_demo_data in Hseed.
    apply Nat.ltb_lt in Hlen. rewrite Hlen in Hseed. injection Hseed as <-. exact IH.
  - destruct IH as ((Hids & Hcodes) & (Happ & Hfb) & Hblank & Hlen & Hpending).
    unfold Clinic.create_worker.
    pose proof (AppBack_create_worker_table today data (Clinic.registry st))
      as (Hle & Hnodup & Hnew).
    destruct (AppBack.create_worker today data (Clinic.registry st)) as [r reg'].
    simpl in *. split_and!; try done.
    + split; [by apply Hnodup|done].
    + split; simpl.
      * eapply Forall_impl; [exact Happ|]. intros a [Hw Hd]. split; [|done].
        unfold Clinic.foreign_key in *. lia.
      * eapply Forall_impl; [exact Hfb|]. intros a [Hw Hd]. split; [|done].
        unfold Clinic.foreign_key in *. lia.
    + intros [?|?]%Hnew; done.
    + lia.
  - destruct IH as ((Hids & Hcodes) & (Happ & Hfb) & Hblank & Hlen & Hpending).
    unfold Clinic.create_appointment.
    destruct (text_field data "healthId" ≫= _) as [[[health_id speciality] requested]|e];
      [|done].
    destruct (String.eqb health_id ""); [done|].
    destruct (Clinic.first_worker _ _) as [[i w]|] eqn:Hfirst; [|done].
    apply first_worker_Some in Hfirst as [Hi%lookup_lt_Some _].
    simpl. split_and!; try done.
    + split; simpl; [|done]. apply Forall_app. split; [done|].
      apply Forall_singleton. simpl. done.
    + apply Forall_app. split; [done|]. by apply Forall_singleton.
  - destruct IH as ((Hids & Hcodes) & (Happ & Hfb) & Hblank & Hlen & Hpending).
    unfold Clinic.create_feedback.
    destruct (text_field data "healthId" ≫= _) as [[[health_id rating] message]|e];
      [|done].
    destruct (Clinic.first_worker _ _) as [[i w]|] eqn:Hfirst; [|done].
    apply first_worker_Some in Hfirst as [Hi%lookup_lt_Some _].
    simpl. split_and!; try done.
    split; simpl; [done|]. apply Forall_app. split; [done|].
    apply Forall_singleton. simpl. done.
Qed.

(** X16.  The handlers keep the constraints the schema declares, in every
    state of the database: no two workers share a [health_id], no two
    doctors a [code], every appointment and every feedback points to an
    existing worker and, when it names a doctor, to an existing doctor;
    besides, no worker has an empty identifier and every appointment is
    still ['pending']. *)
Theorem schema_constraints_hold st :
  Clinic.reachable st →
  Clinic.unique_columns st
  ∧ Clinic.foreign_keys st
  ∧ ("" ∉ AppBack.Worker.health_id <$> AppBack.workers (Clinic.registry st))
  ∧ Forall (λ a, Clinic.Appointment.status a = "pending") (Clinic.appointments st).
Proof.
  intros (? & ? & ? & _ & ?)%reachable_database. done.
Qed.

End Database.


Section Feedback.
Context `{Externals}.



End Feedback.

Lemma seed_demo_data_empty now :
  Clinic.seed_demo_data now Clinic.empty
  = Ok {| Clinic.registry :=
            {| AppBack.workers := Clinic.demo_workers now;
               AppBack.storage := {| FACE_IMAGE_DIR := ∅; QR_IMAGE_DIR := ∅ |} |};
          Clinic.doctors := Clinic.demo_doctors;
          Clinic.appointments := Clinic.demo_appointment now 0 0 <$> seq 1 10;
          Clinic.feedback := Clinic.demo_feedback now 0 0 <$> seq 1 10 |}.
Proof. reflexivity. Qed.

Section Seeding.
Context `{Externals}.

(** X20.  [seed_demo_data] seeds once.  On a database with a worker it
    changes nothing; run again after it succeeded, it changes nothing;
    and at a restart of the service, in any state the handlers can have
    left, it neither fails nor changes the database.  It fails when
    there is no worker but a doctor with one of the demo codes.  On the empty database it writes ten doctors and the ten
    workers [W1001] to [W1010], with one appointment and one feedback
    each, the ratings between 1 and 5. *)
Theorem seed_demo_data_seeds_once now :
  (∀ st, AppBack.workers (Clinic.registry st) ≠ [] →
         Clinic.seed_demo_data now st = Ok st)
  ∧ (∀ now0 st st', Clinic.seed_demo_data now0 st = Ok st' →
                    Clinic.seed_demo_data now st' = Ok st')
  ∧ (∀ st, Clinic.reachable st → Clinic.seed_demo_data now st = Ok st)
  ∧ (∀ st d, AppBack.workers (Clinic.registry st) = [] →
             d ∈ Clinic.doctors st →
             Clinic.Doctor.code d ∈ Clinic.Doctor.code <$> Clinic.demo_doctors →
             Clinic.seed_demo_data now st = Raise StatementError)
  ∧ (∃ st, Clinic.seed_demo_data now Clinic.empty = Ok st
           ∧ AppBack.Worker.health_id <$> AppBack.workers (Clinic.registry st)
             = ["W1001"; "W1002"; "W1003"; "W1004"; "W1005";
                "W1006"; "W1007"; "W1008"; "W1009"; "W1010"]
           ∧ Clinic.Doctor.code <$> Clinic.doctors st
             = ["D001"; "D002"; "D003"; "D004"; "D005";
                "D006"; "D007"; "D008"; "D009"; "D010"]
           ∧ Clinic.Appointment.worker_id <$> Clinic.appointments st = seq 0 10
           ∧ Clinic.Feedback.worker_id <$> Clinic.feedback st = seq 0 10
           ∧ Forall (λ f, ∃ n, Clinic.Feedback.rating f = Some n ∧ 1 <= n <= 5)
                    (Clinic.feedback st)).
Proof.
  assert (∀ st, AppBack.workers (Clinic.registry st) ≠ [] →
                Clinic.seed_demo_data now st = Ok st) as Hfull.
  { intros st Hws. unfold Clinic.seed_demo_data.
    by destruct (AppBack.workers (Clinic.registry st)). }
  split_and!.
  - done.
  - intros now0 st st'. unfold Clinic.seed_demo_data at 1.
    destruct (AppBack.workers (Clinic.registry st)) as [|w ws] eqn:Hws; simpl.
    + destruct (bool_decide _); [discriminate|]. intros [= <-]. by apply Hfull.
    + intros [= <-]. apply Hfull. by rewrite Hws.
  - intros st (_ & _ & _ & Hlen & _)%reachable_database. apply Hfull.
    destruct (AppBack.workers (Clinic.registry st)); [simpl in Hlen; lia|done].
  - intros st d Hws Hd Hcode. unfold Clinic.seed_demo_data. rewrite Hws. simpl.
    rewrite bool_decide_eq_true_2; [done|]. apply Exists_exists. by exists d.
  - eexists. split; [apply seed_demo_data_empty|]. simpl.
    split_and!; try reflexivity.
    repeat (apply Forall_cons; split; [eexists; split; [reflexivity|simpl; lia]|]).
    apply Forall_nil_2.
Qed.

End Seeding.

(** ** The further properties at sample requests *)

Lemma data_url_marker_is_dropped_witness :
  _save_face_image (H := Sample.externals) "W1001"
    (JStr ("data:image/png;base64" +:+ "," +:+ "iVBORw0KGgoAAAANSUhEUgAAAAoAAAAK"))
    (Sample.faces 300 200)
  = _save_face_image (H := Sample.externals) "W1001"
      (JStr "iVBORw0KGgoAAAANSUhEUgAAAAoAAAAK") (Sample.faces 300 200).
Proof.
  destruct (data_url_marker_is_dropped (H := Sample.externals) "W1001"
              "data:image/png;base64" "iVBORw0KGgoAAAANSUhEUgAAAAoAAAAK"
              (Sample.faces 300 200)) as [Hone _].
  - apply (bool_decide_unpack _). vm_compute. reflexivity.
  - apply Hone. apply (bool_decide_unpack _). vm_compute. reflexivity.
Defined.

Lemma bad_photo_is_no_photo_witness :
  (∀ st : App.State,
     App.create_worker (H := Sample.externals) "2024-02-01"
       (<["faceImage" := JInt 5]> Sample.asha) st
     = App.create_worker (H := Sample.externals) "2024-02-01"
         (delete "faceImage" Sample.asha) st)
  ∧ (∀ st : AppBack.State,
       AppBack.create_worker (H := Sample.externals) "2024-02-01"
         (<["faceImage" := JInt 5]> Sample.asha) st
       = AppBack.create_worker (H := Sample.externals) "2024-02-01"
           (delete "faceImage" Sample.asha) st).
Proof.
  apply (bad_photo_is_no_photo (H := Sample.externals) "2024-02-01" Sample.asha (JInt 5)).
  left. intros s. discriminate.
Defined.



Lemma overlay_in_bottom_right_quarter_witness :
  ∃ out fs',
    _generate_qr_image (H := Sample.externals) "W1001" "W1001" (Some "W1001.png")
      (Sample.faces 300 200) = Ok (out, fs')
    ∧ ∃ img ov,
        QR_IMAGE_DIR fs' !! out = Some img ∧ pic_overlay img = Some ov
        ∧ ov_face ov = Sample.png 300 200
        ∧ ov_bordered ov = (fst (ov_thumb ov) + 8, snd (ov_thumb ov) + 8)
        ∧ fst (ov_pos ov) + fst (ov_bordered ov) = fst (size img) - 8
        ∧ snd (ov_pos ov) + snd (ov_bordered ov) = snd (size img) - 8
        ∧ fst (size img) <= 2 * fst (ov_pos ov)
        ∧ snd (size img) <= 2 * snd (ov_pos ov)
        ∧ 330 <= fst (size img).
Proof.
  eexists _, _. split; [vm_compute; reflexivity|].
  apply (overlay_in_bottom_right_quarter (H := Sample.externals) "W1001" "W1001"
           "W1001.png" (Sample.faces 300 200) _ _ (Sample.png 300 200) 300 200).
  - discriminate.
  - vm_compute. reflexivity.
  - vm_compute. reflexivity.
  - lia.
  - lia.
  - vm_compute. reflexivity.
Defined.

Lemma thumbnail_keeps_proportions_witness :
  ∃ out fs',
    _generate_qr_image (H := Sample.externals) "W1001" "W1001" (Some "W1001.png")
      (Sample.faces 300 200) = Ok (out, fs')
    ∧ ∃ img ov,
        QR_IMAGE_DIR fs' !! out = Some img ∧ pic_overlay img = Some ov
        ∧ 1 <= fst (ov_thumb ov) ∧ 1 <= snd (ov_thumb ov)
        ∧ Z.abs (fst (ov_thumb ov) * 200 - snd (ov_thumb ov) * 300) < Z.max 300 200
        ∧ (300 <= Z.max 64 (fst (size img) / 6) → 200 <= Z.max 64 (fst (size img) / 6) →
           ov_thumb ov = (300, 200)).
Proof.
  eexists _, _. split; [vm_compute; reflexivity|].
  apply (thumbnail_keeps_proportions (H := Sample.externals) "W1001" "W1001"
           "W1001.png" (Sample.faces 300 200) _ _ (Sample.png 300 200) 300 200).
  - discriminate.
  - vm_compute. reflexivity.
  - vm_compute. reflexivity.
  - lia.
  - lia.
  - vm_compute. reflexivity.
Defined.



Lemma schema_constraints_hold_witness :
  Clinic.unique_columns Demo.served
  ∧ Clinic.foreign_keys Demo.served
  ∧ ("" ∉ AppBack.Worker.health_id <$> AppBack.workers (Clinic.registry Demo.served))
  ∧ Forall (λ a, Clinic.Appointment.status a = "pending")
           (Clinic.appointments Demo.served).
Proof.
  apply (schema_constraints_hold (H := Sample.externals) Demo.served).
  apply Clinic.reachable_feedback, Clinic.reachable_appointment.
  apply (Clinic.reachable_worker (H := Sample.externals) "2025-09-01" Demo.meena).
  apply (Clinic.reachable_seeded Demo.now). reflexivity.
Defined.




Lemma assets_served_after_registration_witness :
  (∃ f img,
     App.read_body "2024-02-01" Sample.asha_with_face = Ok (App.Accepted f)
     ∧ App.get_worker_qr (H := Sample.externals) (App.Fields.health_id f)
         (snd (App.create_worker (H := Sample.externals) "2024-02-01" Sample.asha_with_face App.initial))
       = (SendFile img, snd (App.create_worker (H := Sample.externals) "2024-02-01" Sample.asha_with_face App.initial))
     ∧ pic_data img = json_dumps (App.qr_payload f)
     ∧ (∀ qrUrl faceUrl,
          fst (App.create_worker (H := Sample.externals) "2024-02-01" Sample.asha_with_face App.initial)
          = Created (App.Fields.health_id f) qrUrl (Some faceUrl) →
          ∃ image_bytes,
            get_worker_face (App.Fields.health_id f)
              (App.storage (snd (App.create_worker (H := Sample.externals) "2024-02-01" Sample.asha_with_face App.initial)))
            = SendFace image_bytes))
  ∧ (∃ f img,
       AppBack.read_body "2024-02-01" Sample.asha_with_face = Ok (AppBack.Accepted f)
       ∧ AppBack.get_worker_qr (H := Sample.externals) (AppBack.Fields.health_id f)
           (snd (AppBack.create_worker (H := Sample.externals) "2024-02-01" Sample.asha_with_face Sample.table))
         = (SendFile img, snd (AppBack.create_worker (H := Sample.externals) "2024-02-01" Sample.asha_with_face Sample.table))
       ∧ pic_data img = json_dumps (AppBack.qr_payload f)
       ∧ (∀ qrUrl faceUrl,
            fst (AppBack.create_worker (H := Sample.externals) "2024-02-01" Sample.asha_with_face Sample.table)
            = Created (AppBack.Fields.health_id f) qrUrl (Some faceUrl) →
            ∃ image_bytes,
              get_worker_face (AppBack.Fields.health_id f)
                (AppBack.storage (snd (AppBack.create_worker (H := Sample.externals) "2024-02-01" Sample.asha_with_face Sample.table)))
              = SendFace image_bytes)).
Proof.
  split.
  - apply (proj1 (assets_served_after_registration (H := Sample.externals)) "2024-02-01"
             Sample.asha_with_face App.initial _
             (fst (App.create_worker (H := Sample.externals) "2024-02-01" Sample.asha_with_face App.initial))).
    + apply surjective_pairing.
    + vm_compute. reflexivity.
  - apply (proj2 (assets_served_after_registration (H := Sample.externals)) "2024-02-01"
             Sample.asha_with_face Sample.table _
             (fst (AppBack.create_worker (H := Sample.externals) "2024-02-01" Sample.asha_with_face Sample.table))).
    + apply surjective_pairing.
    + vm_compute. reflexivity.
Defined.

